(** * The request dispatcher of the runtime (runtime/setup.go)

    A shallow embedding of [Server.handleRPC], [Server.handler],
    [Server.scrapeMetrics] and [Setup], together with a model of the
    method+path router they drive, and the properties of endpoint
    registration and request dispatch. *)

From Stdlib Require Import ZArith String Ascii List Bool Lia.
From stdpp Require Import gmap strings list.

Local Open Scope Z_scope.
Local Open Scope string_scope.

(** ** Go strings

    A Go string is a sequence of bytes; [string] (a list of 8-bit [ascii])
    is the same data.  The functions below are the ones of package
    [strings] and the slice expressions used by setup.go. *)
Module strings.

(** [s[n:]] *)
Fixpoint sliceFrom (n : nat) (s : string) : string :=
  match n, s with
  | O, _ => s
  | S n', String _ s' => sliceFrom n' s'
  | S _, EmptyString => EmptyString
  end.

(** [s[:n]] *)
Fixpoint sliceTo (n : nat) (s : string) : string :=
  match n, s with
  | O, _ => EmptyString
  | S n', String a s' => String a (sliceTo n' s')
  | S _, EmptyString => EmptyString
  end.

(** [strings.HasPrefix(s, prefix)] *)
Fixpoint HasPrefix (s prefix : string) {struct prefix} : bool :=
  match prefix, s with
  | EmptyString, _ => true
  | String a p', String b s' => Ascii.eqb a b && HasPrefix s' p'
  | String _ _, EmptyString => false
  end.

(** [strings.TrimPrefix(s, prefix)] *)
Definition TrimPrefix (s prefix : string) : string :=
  if HasPrefix s prefix then sliceFrom (String.length prefix) s else s.

(** [strings.IndexByte(s, c)]: the index of the first [c], or [-1]. *)
Fixpoint IndexByte (s : string) (c : ascii) : Z :=
  match s with
  | EmptyString => -1
  | String a s' =>
      if Ascii.eqb a c then 0
      else let i := IndexByte s' c in if Z.eqb i (-1) then -1 else i + 1
  end.

(** [strings.Split(s, sep)] for a one-byte separator. *)
Fixpoint SplitByte (s : string) (sep : ascii) : list string :=
  match s with
  | EmptyString => [EmptyString]
  | String a s' =>
      if Ascii.eqb a sep then EmptyString :: SplitByte s' sep
      else match SplitByte s' sep with
           | x :: xs => String a x :: xs
           | [] => [String a EmptyString]
           end
  end.

(** [strings.Join(xs, sep)] *)
Fixpoint Join (xs : list string) (sep : string) : string :=
  match xs with
  | [] => EmptyString
  | [x] => x
  | x :: xs' => x +:+ sep +:+ Join xs' sep
  end.

(** [strings.IndexByte(s, c) != -1] *)
Definition ContainsByte (s : string) (c : ascii) : bool :=
  negb (Z.eqb (IndexByte s c) (-1)).

End strings.

(** ** The router

    Modelled from the spec: the Router Table, package [httprouter], which
    setup.go drives through [New], [Handle] and [Lookup] and whose source
    is not part of runtime/setup.go.  [Handle] is the specification's
    [Register(method, pathPattern, handler)]: patterns are made of
    segments, may declare parameter segments and at most one trailing
    catch-all segment, and a registration that collides with an earlier
    one of the same method surfaces as a panic.  [Lookup] is the
    specification's [Lookup(method, path)]: the bound handler and the
    extracted parameters if a pattern matches. *)
Module httprouter.

(** A handler function (type [httprouter.Handle]).  Handlers are the
    generated endpoint functions; the model names them. *)
Inductive HandleFn : Type := Fn (id : nat).

#[export] Instance HandleFn_eq_dec : EqDecision HandleFn.
Proof. solve_decision. Defined.

(** [httprouter.Param] and [httprouter.Params] *)
Record Param : Type := mkParam { Key : string; Value : string }.
Definition Params : Type := list Param.

#[export] Instance Param_eq_dec : EqDecision Param.
Proof. solve_decision. Defined.

(** One segment of a path pattern: literal text, a named parameter
    [:name], or a trailing catch-all [*name]. *)
Inductive segment : Type :=
| Static (s : string)
| Named (name : string)
| CatchAll (name : string).

#[export] Instance segment_eq_dec : EqDecision segment.
Proof. solve_decision. Defined.

Definition hasMarker (s : string) : bool :=
  strings.ContainsByte s ":"%char || strings.ContainsByte s "*"%char.

(** A parameter marker is recognised at the start of a segment; its name
    is not empty and holds no further marker. *)
Definition parseSegment (s : string) : option segment :=
  match s with
  | String c name =>
      if Ascii.eqb c ":"%char then
        if String.eqb name "" || hasMarker name then None else Some (Named name)
      else if Ascii.eqb c "*"%char then
        if String.eqb name "" || hasMarker name then None else Some (CatchAll name)
      else if hasMarker s then None else Some (Static s)
  | EmptyString => Some (Static "")
  end.

Fixpoint parseSegments (xs : list string) : option (list segment) :=
  match xs with
  | [] => Some []
  | x :: xs' =>
      match parseSegment x, parseSegments xs' with
      | Some (CatchAll n), Some [] => Some [CatchAll n]
      | Some (CatchAll _), Some (_ :: _) => None
      | Some sg, Some sgs => Some (sg :: sgs)
      | _, _ => None
      end
  end.

(** The segments of a request path or of a pattern: the text after the
    leading ['/'], cut at every ['/'].  A path that does not begin with
    ['/'] has none. *)
Definition splitPath (path : string) : option (list string) :=
  match path with
  | String c rest =>
      if Ascii.eqb c "/"%char then Some (strings.SplitByte rest "/"%char) else None
  | EmptyString => None
  end.

Definition parsePattern (path : string) : option (list segment) :=
  match splitPath path with
  | Some xs => parseSegments xs
  | None => None
  end.

(** Matching a pattern against the segments of a request path.  A named
    parameter binds one segment (not the empty one when it ends the
    pattern); a catch-all binds the rest of the path, leading ['/']
    included. *)
Fixpoint matchSegments (pat : list segment) (xs : list string) : option Params :=
  match pat, xs with
  | [], [] => Some []
  | Static s :: pat', x :: xs' =>
      if String.eqb s x then matchSegments pat' xs' else None
  | Named n :: pat', x :: xs' =>
      match pat' with
      | [] => if String.eqb x "" then None
              else match xs' with [] => Some [mkParam n x] | _ :: _ => None end
      | _ :: _ =>
          match matchSegments pat' xs' with
          | Some ps => Some (mkParam n x :: ps)
          | None => None
          end
      end
  | CatchAll n :: _, x :: xs' =>
      Some [mkParam n ("/" +:+ strings.Join (x :: xs') "/")]
  | _, _ => None
  end.

(** Whether a request path matches a pattern, and with which
    parameters. *)
Definition matchPath (pattern path : string) : option Params :=
  match parsePattern pattern, splitPath path with
  | Some pat, Some xs => matchSegments pat xs
  | _, _ => None
  end.

(** Two patterns of one method tree collide when they are the same
    pattern, or when one has a parameter or catch-all where the other
    has something else.  A pattern that ends in ['/'] does not collide
    with a parameter after that ['/']. *)
Fixpoint conflicts (p q : list segment) : bool :=
  match p, q with
  | [], [] => true
  | [], _ :: _ | _ :: _, [] => false
  | Static s :: p', Static t :: q' => String.eqb s t && conflicts p' q'
  | Named n :: p', Named m :: q' =>
      if String.eqb n m then conflicts p' q' else true
  | Static s :: p', Named _ :: _ =>
      match p' with [] => negb (String.eqb s "") | _ :: _ => true end
  | Named _ :: _, Static t :: q' =>
      match q' with [] => negb (String.eqb t "") | _ :: _ => true end
  | CatchAll _ :: _, _ :: _ | _ :: _, CatchAll _ :: _ => true
  end.

Definition route : Type := (list segment * HandleFn)%type.

(** Modelled from the spec: [httprouter.Router], the Router Table: one
    tree of routes per method (the wildcard marker is one more method),
    and the behaviour flags that [Setup] assigns. *)
Record Router : Type := mkRouter {
  trees : gmap string (list route);
  RedirectTrailingSlash : bool;
  RedirectFixedPath : bool;
  HandleMethodNotAllowed : bool;
  HandleOPTIONS : bool
}.

(** [httprouter.New()] *)
Definition New : Router :=
  {| trees := ∅;
     RedirectTrailingSlash := true;
     RedirectFixedPath := true;
     HandleMethodNotAllowed := true;
     HandleOPTIONS := true |}.

Definition tree (r : Router) (method : string) : list route :=
  default [] (trees r !! method).

(** Modelled from the spec: [r.Handle(method, path, handle)], the Router
    Table's [Register].  No two registrations may collide on the same
    (method, pattern) pair, and a violation surfaces as a startup-time
    error: [None] is the panic, raised when the path does not begin with
    ['/'], when the pattern is malformed, or when the route collides with
    one already in the tree of [method]. *)
Definition Handle (method path : string) (handle : HandleFn) (r : Router)
  : option Router :=
  match parsePattern path with
  | None => None
  | Some pat =>
      let root := tree r method in
      if existsb (fun rt => conflicts (fst rt) pat) root then None
      else Some {| trees := <[method := (root ++ [(pat, handle)])%list]> (trees r);
                   RedirectTrailingSlash := RedirectTrailingSlash r;
                   RedirectFixedPath := RedirectFixedPath r;
                   HandleMethodNotAllowed := HandleMethodNotAllowed r;
                   HandleOPTIONS := HandleOPTIONS r |}
  end.

Fixpoint getValue (root : list route) (xs : list string)
  : option (HandleFn * Params) :=
  match root with
  | [] => None
  | (pat, h) :: root' =>
      match matchSegments pat xs with
      | Some ps => Some (h, ps)
      | None => getValue root' xs
      end
  end.

(** The path with its trailing ['/'] removed, or added when it has
    none. *)
Fixpoint toggleSlash (xs : list string) : list string :=
  match xs with
  | [] => []
  | [x] => if String.eqb x "" then [] else [x; ""]
  | x :: xs' => x :: toggleSlash xs'
  end.

(** Modelled from the spec: [r.Lookup(method, path)], the Router Table's
    [Lookup]: the bound handler and the extracted path parameters if a
    pattern registered under [method] matches ([None] is Go's [nil]).  The
    third result is the trailing-slash recommendation: no handle for the
    path, but one for the path with the trailing ['/'] toggled. *)
Definition Lookup (r : Router) (method path : string)
  : option HandleFn * Params * bool :=
  match splitPath path with
  | None => (None, [], false)
  | Some xs =>
      match getValue (tree r method) xs with
      | Some (h, ps) => (Some h, ps, false)
      | None => (None, [], bool_decide (is_Some (getValue (tree r method) (toggleSlash xs))))
      end
  end.

End httprouter.

(** ** Collaborators of setup.go *)

(** Package [config]: the configuration value handed to [Setup]. *)
Module config.

(** Modelled from the spec: the declarations of package [config], which
    setup.go reads but does not contain: an ordered list of services, each
    with a name and an ordered endpoint list of name, path, method set and
    handler.  The field names are the ones setup.go uses. *)
Record Endpoint : Type := mkEndpoint {
  Name : string;
  Path : string;
  Methods : list string;
  Handler : httprouter.HandleFn
}.

Record Service : Type := mkService {
  ServiceName : string;
  Endpoints : list Endpoint
}.

Record ServerConfig : Type := mkServerConfig {
  Services : list Service
}.

End config.

(** Package [metrics] and the encoder of package [expfmt]. *)
Module metrics.

Definition MetricFamily : Type := string.

(** Modelled from the spec: the metrics-reporting capability,
    [Gather() → (metric families, error)], and the encoding of one metric
    family into the response, each of which may fail with an error
    message. *)
Record Env : Type := mkEnv {
  Gather : list MetricFamily + string;
  Encode : MetricFamily -> string + string
}.

End metrics.

(** ** Effects of one request

    The dispatcher acts on the response writer, the unknown-endpoint
    counter, the router and the matched handler.  A run is the sequence of
    these actions, in program order. *)
Inductive Event : Type :=
| RouterLookup (method path : string)
| UnknownEndpoint (svc api : string)
| HeaderSet (key value : string)
| WriteHeader (code : Z)
| Write (bytes : string)
| Call (h : httprouter.HandleFn) (p : httprouter.Params).

(** A computation that performs actions and returns a value. *)
Definition M (A : Type) : Type := (A * list Event)%type.

Definition ret {A} (a : A) : M A := (a, []).

Definition bind {A B} (c : M A) (k : A -> M B) : M B :=
  let '(a, t1) := c in let '(b, t2) := k a in (b, (t1 ++ t2)%list).

Definition emit (e : Event) : M unit := (tt, [e]).

Definition trace {A} (c : M A) : list Event := snd c.

Notation "x <- c ;; k" := (bind c (fun x => k))
  (at level 100, c at next level, right associativity).
Notation "c ;;; k" := (bind c (fun _ => k))
  (at level 100, right associativity).

(** ** What the client receives

    The state of an [http.ResponseWriter]: headers set before the status
    line is written are sent; the first [WriteHeader] fixes the status; a
    [Write] before any [WriteHeader] sends status 200. *)
Record Response : Type := mkResponse {
  status : option Z;
  header : gmap string string;
  body : string
}.

Definition emptyResponse : Response :=
  {| status := None; header := ∅; body := "" |}.

Definition applyEvent (w : Response) (e : Event) : Response :=
  match e with
  | HeaderSet k v =>
      match status w with
      | None => {| status := None; header := <[k := v]> (header w); body := body w |}
      | Some _ => w
      end
  | WriteHeader code =>
      match status w with
      | None => {| status := Some code; header := header w; body := body w |}
      | Some _ => w
      end
  | Write bytes =>
      {| status := Some (default 200 (status w));
         header := header w;
         body := body w +:+ bytes |}
  | RouterLookup _ _ | UnknownEndpoint _ _ | Call _ _ => w
  end.

Definition response (t : list Event) : Response :=
  fold_left applyEvent t emptyResponse.

(** The unknown-endpoint counter increments of a run. *)
Definition increments (t : list Event) : list (string * string) :=
  omap (fun e => match e with UnknownEndpoint s a => Some (s, a) | _ => None end) t.

(** The router lookups of a run. *)
Definition lookups (t : list Event) : list (string * string) :=
  omap (fun e => match e with RouterLookup m p => Some (m, p) | _ => None end) t.

(** The handler invocations of a run. *)
Definition calls (t : list Event) : list (httprouter.HandleFn * httprouter.Params) :=
  omap (fun e => match e with Call h p => Some (h, p) | _ => None end) t.

(** Package [net/http] *)
Module http.

Definition StatusNotFound : Z := 404.
Definition StatusInternalServerError : Z := 500.

Definition LF : string := String "010"%char EmptyString.

(** [http.Error(w, error, code)]: a plain-text reply, the message
    followed by a newline. *)
Definition Error (error : string) (code : Z) : M unit :=
  emit (HeaderSet "Content-Type" "text/plain; charset=utf-8") ;;;
  emit (HeaderSet "X-Content-Type-Options" "nosniff") ;;;
  emit (WriteHeader code) ;;;
  emit (Write (error +:+ LF)).

Record Request : Type := mkRequest {
  Method : string;
  URL_Path : string
}.

End http.

(** ** The process environment of [setupLogging]

    The log socket, file descriptors and the process log, as the calls of
    [setupLogging] see them. *)
Module os.

(** The outcome of every call the function can make: of the [n]-th
    [net.DialUnix] (counting from 0) a connection or an error message, of
    [sock.File()] a file descriptor or an error message, of
    [syscall.Dup2(oldfd, newfd)] an error message if it fails. *)
Record Env : Type := mkEnv {
  DialUnix : nat -> Z + string;
  File : Z -> Z + string;
  Dup2 : Z -> Z -> option string
}.

(** What the function does to the process, in program order.  A log line
    is recorded as its text, without timestamp and final newline. *)
Inductive Action : Type :=
| Dial (net name : string)
| LogLine (text : string)
| Sleep (seconds : Z)
| SocketFile (sock : Z)
| Dup (oldfd newfd : Z)
| Exit (code : Z).

(** How a run ends: it returns, the process exits ([log.Fatal]), or the
    model ran out of loop iterations. *)
Inductive Outcome (A : Type) : Type :=
| Returns (a : A)
| Exits
| OutOfFuel.

Arguments Returns {A} a.
Arguments Exits {A}.
Arguments OutOfFuel {A}.

(** Go's [int] is 64 bits wide on the targets of the runtime. *)
Definition wrapInt (z : Z) : Z :=
  (z + 2 ^ 63) mod 2 ^ 64 - 2 ^ 63.

End os.

(** ** runtime/setup.go *)
Module runtime.

Import httprouter.

Record LogEntry : Type := mkLogEntry {
  log_service : string;
  log_endpoint : string;
  log_path : string;
  log_msg : string
}.

Record Server : Type := mkServer {
  logger : list LogEntry;
  router : Router
}.

(** [wildcardMethod] is an internal method name we register wildcard
    methods under. *)
Definition wildcardMethod : string := "__ENCORE_WILDCARD__".

(** The loop of [handleRPC] over [endpoint.Methods]. *)
Fixpoint handleMethods (ms : list string) (endpoint : config.Endpoint)
    (r : Router) : option Router :=
  match ms with
  | [] => Some r
  | m :: ms' =>
      let m := if String.eqb m "*" then wildcardMethod else m in
      match Handle m (config.Path endpoint) (config.Handler endpoint) r with
      | Some r' => handleMethods ms' endpoint r'
      | None => None
      end
  end.

(** [srv.handleRPC(service, endpoint)]; [None] when the router panics. *)
Definition handleRPC (service : string) (endpoint : config.Endpoint)
    (srv : Server) : option Server :=
  let entry := {| log_service := service;
                  log_endpoint := config.Name endpoint;
                  log_path := config.Path endpoint;
                  log_msg := "registered endpoint" |} in
  match handleMethods (config.Methods endpoint) endpoint (router srv) with
  | Some r => Some {| logger := (logger srv ++ [entry])%list; router := r |}
  | None => None
  end.

(** [srv.scrapeMetrics(w, req)] *)
Fixpoint encodeAll (env : metrics.Env) (mfs : list metrics.MetricFamily) : M unit :=
  match mfs with
  | [] => ret tt
  | mf :: mfs' =>
      match metrics.Encode env mf with
      | inr err =>
          http.Error ("could not encode metrics: " +:+ err) http.StatusInternalServerError
      | inl bytes => emit (Write bytes) ;;; encodeAll env mfs'
      end
  end.

Definition scrapeMetrics (env : metrics.Env) : M unit :=
  match metrics.Gather env with
  | inr err =>
      http.Error ("could not gather metrics: " +:+ err) http.StatusInternalServerError
  | inl mfs => encodeAll env mfs
  end.

Definition DQ : string := String "034"%char EmptyString.

(** The raw string literal written on a routing miss. *)
Definition notFoundBody : string :=
  "{" +:+ http.LF +:+
  "  " +:+ DQ +:+ "code" +:+ DQ +:+ ": " +:+ DQ +:+ "unknown_endpoint" +:+ DQ +:+ "," +:+ http.LF +:+
  "  " +:+ DQ +:+ "message" +:+ DQ +:+ ": " +:+ DQ +:+ "endpoint not found" +:+ DQ +:+ "," +:+ http.LF +:+
  "  " +:+ DQ +:+ "details" +:+ DQ +:+ ": null" +:+ http.LF +:+
  "}" +:+ http.LF.

(** [srv.router.Lookup(method, path)], as an action. *)
Definition routerLookup (srv : Server) (method path : string)
  : M (option HandleFn * Params * bool) :=
  emit (RouterLookup method path) ;;; ret (Lookup (router srv) method path).

(** [srv.handler(w, req)] *)
Definition handler (env : metrics.Env) (srv : Server) (req : http.Request) : M unit :=
  let ep := strings.TrimPrefix (http.URL_Path req) "/" in
  if strings.HasPrefix ep "__encore." then
    let api := strings.sliceFrom (String.length "__encore.") ep in
    if String.eqb api "ScrapeMetrics" then scrapeMetrics env
    else http.Error ("unknown internal endpoint: " +:+ ep) http.StatusNotFound
  else
    r <- routerLookup srv (http.Method req) (http.URL_Path req) ;;
    let '(h, p, _) := r in
    r <- match h with
         | None => routerLookup srv wildcardMethod (http.URL_Path req)
         | Some _ => ret r
         end ;;
    let '(h, p, _) := r in
    match h with
    | None =>
        let idx := strings.IndexByte ep "."%char in
        let '(svc, api) :=
          if negb (Z.eqb idx (-1))
          then (strings.sliceTo (Z.to_nat idx) ep, strings.sliceFrom (Z.to_nat (idx + 1)) ep)
          else ("unknown", "Unknown") in
        emit (UnknownEndpoint svc api) ;;;
        emit (HeaderSet "Content-Type" "application/json") ;;;
        emit (WriteHeader 404) ;;;
        emit (Write notFoundBody)
    | Some h => emit (Call h p)
    end.

(** The loops of [Setup] over the endpoints of a service and over the
    services. *)
Fixpoint setupEndpoints (service : string) (eps : list config.Endpoint)
    (srv : Server) : option Server :=
  match eps with
  | [] => Some srv
  | endpoint :: eps' =>
      match handleRPC service endpoint srv with
      | Some srv' => setupEndpoints service eps' srv'
      | None => None
      end
  end.

Fixpoint setupServices (svcs : list config.Service) (srv : Server) : option Server :=
  match svcs with
  | [] => Some srv
  | svc :: svcs' =>
      match setupEndpoints (config.ServiceName svc) (config.Endpoints svc) srv with
      | Some srv' => setupServices svcs' srv'
      | None => None
      end
  end.

(** [Setup(cfg)], from the point where [setupLogging] has returned;
    [None] when a registration panics. *)
Definition Setup (cfg : config.ServerConfig) : option Server :=
  let r := New in
  let r := {| trees := trees r;
              RedirectTrailingSlash := RedirectTrailingSlash r;
              RedirectFixedPath := RedirectFixedPath r;
              HandleMethodNotAllowed := HandleMethodNotAllowed r;
              HandleOPTIONS := false |} in
  let r := {| trees := trees r;
              RedirectTrailingSlash := RedirectTrailingSlash r;
              RedirectFixedPath := false;
              HandleMethodNotAllowed := HandleMethodNotAllowed r;
              HandleOPTIONS := HandleOPTIONS r |} in
  let r := {| trees := trees r;
              RedirectTrailingSlash := false;
              RedirectFixedPath := RedirectFixedPath r;
              HandleMethodNotAllowed := HandleMethodNotAllowed r;
              HandleOPTIONS := HandleOPTIONS r |} in
  let srv := {| logger := []; router := r |} in
  setupServices (config.Services cfg) srv.

(** The [for i := 0; ; i++] loop of [setupLogging]: [i] is the loop
    counter, [n] the number of dials made so far, [fuel] the number of
    iterations the model may still run. *)
Fixpoint dialLoop (env : os.Env) (fuel : nat) (i : Z) (n : nat)
  : os.Outcome Z * list os.Action :=
  match fuel with
  | O => (os.OutOfFuel, [])
  | S fuel' =>
      let dial := os.Dial "unix" "/var/lib/encore/applog.sock" in
      match os.DialUnix env n with
      | inl sock => (os.Returns sock, [dial])
      | inr err =>
          if Z.eqb i 120 then
            (os.Exits,
             [dial; os.LogLine ("could not setup logging: " +:+ err); os.Exit 1])
          else
            let '(r, t) := dialLoop env fuel' (os.wrapInt (i + 1)) (S n) in
            (r, dial :: os.LogLine ("could not dial logging socket: " +:+ err)
                  :: os.Sleep 1 :: t)
      end
  end.

(** The rest of [setupLogging], once the socket is connected. *)
Definition redirect (env : os.Env) (sock : Z) : os.Outcome unit * list os.Action :=
  match os.File env sock with
  | inr err =>
      (os.Exits,
       [os.SocketFile sock; os.LogLine ("could not setup logging: " +:+ err); os.Exit 1])
  | inl fd =>
      match os.Dup2 env fd 1 with
      | Some err =>
          (os.Exits,
           [os.SocketFile sock; os.Dup fd 1;
            os.LogLine ("could not redirect stdout: " +:+ err); os.Exit 1])
      | None =>
          match os.Dup2 env fd 2 with
          | Some err =>
              (os.Exits,
               [os.SocketFile sock; os.Dup fd 1; os.Dup fd 2;
                os.LogLine ("could not redirect stderr: " +:+ err); os.Exit 1])
          | None => (os.Returns tt, [os.SocketFile sock; os.Dup fd 1; os.Dup fd 2])
          end
      end
  end.

(** [setupLogging()], run for at most [fuel] iterations of its loop. *)
Definition setupLogging (env : os.Env) (fuel : nat) : os.Outcome unit * list os.Action :=
  match dialLoop env fuel 0 0 with
  | (os.Returns sock, t) =>
      let '(r, t') := redirect env sock in (r, (t ++ t')%list)
  | (os.Exits, t) => (os.Exits, t)
  | (os.OutOfFuel, t) => (os.OutOfFuel, t)
  end.

End runtime.

Import httprouter runtime.

(** ** Vocabulary of the properties *)

(** A tree in which no two routes collide, and a router all of whose trees
    are such. *)
Definition tree_ok (root : list route) : Prop :=
  forall (i j : nat) (ri rj : route),
    (i < j)%nat -> root !! i = Some ri -> root !! j = Some rj ->
    conflicts (fst ri) (fst rj) = false.

Definition router_ok (r : Router) : Prop :=
  forall method : string, tree_ok (tree r method).

(** The method an endpoint method is registered under. *)
Definition registeredMethod (m : string) : string :=
  if String.eqb m "*" then wildcardMethod else m.

(** An endpoint with another method set. *)
Definition withMethods (e : config.Endpoint) (ms : list string) : config.Endpoint :=
  {| config.Name := config.Name e;
     config.Path := config.Path e;
     config.Methods := ms;
     config.Handler := config.Handler e |}.

(** Writing the wildcard as ["*"] where the method set spells out the
    pseudo-method. *)
Definition starForLiteral (m : string) : string :=
  if String.eqb m "__ENCORE_WILDCARD__" then "*" else m.

(** The endpoints of a configuration, in the order [Setup] visits them. *)
Definition endpoints (cfg : config.ServerConfig) : list config.Endpoint :=
  flat_map config.Endpoints (config.Services cfg).

(** The calls [router.Handle(method, path, handler)] that [Setup] makes for
    an endpoint and for a configuration, in order. *)
Definition endpointRegistrations (e : config.Endpoint)
  : list (string * string * HandleFn) :=
  map (fun m => (registeredMethod m, config.Path e, config.Handler e))
      (config.Methods e).

Definition registrations (cfg : config.ServerConfig)
  : list (string * string * HandleFn) :=
  flat_map endpointRegistrations (endpoints cfg).

Fixpoint registerAll (regs : list (string * string * HandleFn)) (r : Router)
  : option Router :=
  match regs with
  | [] => Some r
  | (m, path, h) :: regs' =>
      match Handle m path h r with
      | Some r' => registerAll regs' r'
      | None => None
      end
  end.

(** The router [Setup] starts from. *)
Definition setupRouter : Router :=
  {| trees := ∅;
     RedirectTrailingSlash := false;
     RedirectFixedPath := false;
     HandleMethodNotAllowed := true;
     HandleOPTIONS := false |}.

(** A request path in the reserved internal namespace. *)
Definition reserved (path : string) : bool :=
  strings.HasPrefix (strings.TrimPrefix path "/") "__encore.".

(** The logical endpoint identifier of a request: its path without the
    leading ['/']. *)
Definition identifier (req : http.Request) : string :=
  strings.TrimPrefix (http.URL_Path req) "/".

(** The name of the internal API of a reserved identifier. *)
Definition internalName (req : http.Request) : string :=
  strings.sliceFrom (String.length "__encore.") (identifier req).

(** Cutting a string at its first ['.'], in the words of the
    specification: the part left of the dot and the part right of it, or
    nothing when there is no dot. *)
Fixpoint cutFirstDot (s : string) : option (string * string) :=
  match s with
  | EmptyString => None
  | String c s' =>
      if Ascii.eqb c "."%char then Some (EmptyString, s')
      else match cutFirstDot s' with
           | Some (l, r) => Some (String c l, r)
           | None => None
           end
  end.

(** The (service, api) pair the specification derives from an
    identifier. *)
Definition serviceApi (ep : string) : string * string :=
  default ("unknown", "Unknown") (cutFirstDot ep).

(** The not-found response block of the specification, line by line. *)
Definition notFoundBlock : list string :=
  [ "{";
    "  " +:+ DQ +:+ "code" +:+ DQ +:+ ": " +:+ DQ +:+ "unknown_endpoint" +:+ DQ +:+ ",";
    "  " +:+ DQ +:+ "message" +:+ DQ +:+ ": " +:+ DQ +:+ "endpoint not found" +:+ DQ +:+ ",";
    "  " +:+ DQ +:+ "details" +:+ DQ +:+ ": null";
    "}" ].

Definition unlines (ls : list string) : string :=
  fold_right (fun l acc => l +:+ http.LF +:+ acc) "" ls.

(** The actions of the routing-miss branch, after the lookups. *)
Definition missActions (ep : string) : list Event :=
  [ UnknownEndpoint (fst (serviceApi ep)) (snd (serviceApi ep));
    HeaderSet "Content-Type" "application/json";
    WriteHeader 404;
    Write notFoundBody ].

(** An action on the response writer alone: no router lookup, no counter
    increment, no handler call; a status of 404 or 500; one of the two
    headers of a plain-text or JSON error. *)
Definition quiet (e : Event) : Prop :=
  match e with
  | RouterLookup _ _ | UnknownEndpoint _ _ | Call _ _ => False
  | WriteHeader code => code = 404 \/ code = 500
  | HeaderSet k _ => k = "Content-Type" \/ k = "X-Content-Type-Options"
  | Write _ => True
  end.

(** The dispatcher hands the request to handler [h] with parameters
    [ps]: the run calls that handler with them, and no other. *)
Definition dispatches (t : list Event) (h : HandleFn) (ps : Params) : Prop :=
  calls t = [(h, ps)].

(** An action that is neither a redirect nor an automatic OPTIONS reply:
    the dispatcher writes no status but 404 and 500 and sets no header but
    those of its error replies ([Location] and [Allow] among the ones it
    never sets). *)
Definition noRedirect (e : Event) : Prop :=
  match e with
  | WriteHeader code => code = 404 \/ code = 500
  | HeaderSet k _ => k = "Content-Type" \/ k = "X-Content-Type-Options"
  | RouterLookup _ _ | UnknownEndpoint _ _ | Call _ _ | Write _ => True
  end.

(** The dials, the sleeps and the log lines of a run of
    [setupLogging]. *)
Definition dials (t : list os.Action) : list (string * string) :=
  omap (fun a => match a with os.Dial n a => Some (n, a) | _ => None end) t.

Definition sleeps (t : list os.Action) : list Z :=
  omap (fun a => match a with os.Sleep s => Some s | _ => None end) t.

Definition logLines (t : list os.Action) : list string :=
  omap (fun a => match a with os.LogLine l => Some l | _ => None end) t.

Definition redirections (t : list os.Action) : list (Z * Z) :=
  omap (fun a => match a with os.Dup o n => Some (o, n) | _ => None end) t.

(** The log entry [handleRPC] writes for an endpoint. *)
Definition registeredEntry (service : string) (e : config.Endpoint) : LogEntry :=
  {| log_service := service;
     log_endpoint := config.Name e;
     log_path := config.Path e;
     log_msg := "registered endpoint" |}.

(** The error message of the [n]-th dial, when it fails. *)
Definition dialError (env : os.Env) (n : nat) : string :=
  match os.DialUnix env n with inr err => err | inl _ => "" end.

(** The [n]-th dial fails. *)
Definition dialFails (env : os.Env) (n : nat) : Prop :=
  exists err, os.DialUnix env n = inr err.




(** The handle a lookup returns. *)
Definition found (res : option HandleFn * Params * bool) : option HandleFn :=
  fst (fst res).

(** The server [Setup] returns, for configurations it accepts. *)
Definition serverOf (cfg : config.ServerConfig) : Server :=
  default {| logger := []; router := setupRouter |} (Setup cfg).

(** ** Sample configurations and requests *)
Module Samples.

Definition env : metrics.Env :=
  metrics.mkEnv (inl ["requests_total 3"; "up 1"]) (fun mf => inl mf).

(** An endpoint that spells out the pseudo-method in its method set. *)
Definition literal : config.ServerConfig :=
  config.mkServerConfig
    [config.mkService "hooks"
       [config.mkEndpoint "Hook" "/hooks/:name" ["__ENCORE_WILDCARD__"] (Fn 9)]].

(** An order service: one endpoint with a parameter, one for any
    method. *)
Definition orders : config.ServerConfig :=
  config.mkServerConfig
    [config.mkService "orders"
       [config.mkEndpoint "Create" "/orders.Create" ["POST"] (Fn 1);
        config.mkEndpoint "Get" "/orders/:id" ["GET"] (Fn 2);
        config.mkEndpoint "Any" "/orders/:id/raw" ["GET"; "*"] (Fn 3)]].

(** A user endpoint at the path of the metrics scrape. *)
Definition shadow : config.ServerConfig :=
  config.mkServerConfig
    [config.mkService "__encore"
       [config.mkEndpoint "ScrapeMetrics" "/__encore.ScrapeMetrics" ["GET"] (Fn 7)]].

(** A site that serves every top-level page from one endpoint. *)
Definition pages : config.ServerConfig :=
  config.mkServerConfig
    [config.mkService "site"
       [config.mkEndpoint "Page" "/:page" ["GET"] (Fn 1)]].

(** The same, with an any-method endpoint on the same path. *)
Definition pagesBoth : config.ServerConfig :=
  config.mkServerConfig
    [config.mkService "site"
       [config.mkEndpoint "Page" "/:page" ["GET"] (Fn 1);
        config.mkEndpoint "AnyPage" "/:page" ["*"] (Fn 2)]].

(** A raw any-method endpoint that takes every path. *)
Definition proxy : config.ServerConfig :=
  config.mkServerConfig
    [config.mkService "proxy"
       [config.mkEndpoint "Forward" "/*path" ["*"] (Fn 5)]].

(** Top-level directories, registered with a trailing slash. *)
Definition dirs : config.ServerConfig :=
  config.mkServerConfig
    [config.mkService "files"
       [config.mkEndpoint "Dir" "/:dir/" ["GET"] (Fn 4)]].

(** A user endpoint at the path of the metrics scrape plus a trailing
    slash. *)
Definition scrapeDir : config.ServerConfig :=
  config.mkServerConfig
    [config.mkService "__encore"
       [config.mkEndpoint "ScrapeMetrics" "/__encore.ScrapeMetrics/" ["GET"] (Fn 6)]].

(** Two endpoints of two services on one (method, path) pair. *)
Definition duplicate : config.ServerConfig :=
  config.mkServerConfig
    [config.mkService "a" [config.mkEndpoint "Get" "/items/:id" ["GET"; "POST"] (Fn 1)];
     config.mkService "b" [config.mkEndpoint "Read" "/items/:id" ["PUT"; "GET"] (Fn 2)]].

(** No endpoint at all. *)
Definition empty : config.ServerConfig := config.mkServerConfig [].


(** An endpoint that lists the wildcard twice, once spelled out. *)
Definition twice : config.ServerConfig :=
  config.mkServerConfig
    [config.mkService "hooks"
       [config.mkEndpoint "Hook" "/hooks" ["*"; "POST"; "__ENCORE_WILDCARD__"] (Fn 1)]].


(** A log socket that accepts the third dial. *)
Definition osLate : os.Env :=
  os.mkEnv (fun n => if (n <? 2)%nat then inr "connection refused" else inl 7)
           (fun sock => inl (sock + 10))
           (fun _ _ => None).

(** A log socket that never accepts. *)
Definition osDown : os.Env :=
  os.mkEnv (fun _ => inr "connection refused")
           (fun sock => inl (sock + 10))
           (fun _ _ => None).


End Samples.

(** * Properties *)

(** ** Go strings *)
Section StringFacts.

Lemma append_nil (t : string) : "" +:+ t = t.
Proof. reflexivity. Qed.

Lemma append_cons (a : ascii) (s t : string) :
  String a s +:+ t = String a (s +:+ t).
Proof. reflexivity. Qed.

Lemma append_assoc (s t u : string) : (s +:+ t) +:+ u = s +:+ t +:+ u.
Proof.
  induction s as [|a s IH]; [reflexivity|].
  rewrite !append_cons, IH. reflexivity.
Qed.

Lemma IndexByte_range (s : string) (c : ascii) :
  strings.IndexByte s c = -1 \/ 0 <= strings.IndexByte s c < Z.of_nat (String.length s).
Proof.
  induction s as [|a s IH]; simpl; [now left|].
  destruct (Ascii.eqb a c); [right; lia|].
  destruct (Z.eqb_spec (strings.IndexByte s c) (-1)); [now left | right; lia].
Qed.

End StringFacts.

(** ** The router: colliding patterns and unambiguous lookup *)
Section RouterFacts.

Lemma conflicts_refl (p : list segment) : conflicts p p = true.
Proof.
  induction p as [|[s|n|n] p IH]; simpl; try reflexivity.
  - rewrite String.eqb_refl. exact IH.
  - rewrite String.eqb_refl. exact IH.
Qed.

Lemma matchSegments_nil_r (p : list segment) (a : Params) :
  matchSegments p [] = Some a -> p = [].
Proof. destruct p as [|[s|n|n] p]; simpl; congruence. Qed.

(** No path matches two patterns that do not collide. *)
Lemma conflicts_exclusive (p : list segment) :
  forall (q : list segment) (xs : list string) (a b : Params),
    conflicts p q = false ->
    matchSegments p xs = Some a -> matchSegments q xs = Some b -> False.
Proof.
  induction p as [|sp p IH]; intros q xs a b Hc Hp Hq.
  - destruct q; simpl in Hc; [discriminate|].
    destruct xs; simpl in Hp; [|discriminate].
    apply matchSegments_nil_r in Hq. discriminate.
  - destruct q as [|sq q].
    { destruct xs as [|x xs]; [apply matchSegments_nil_r in Hp; discriminate|].
      simpl in Hq. discriminate. }
    destruct xs as [|x xs]; [apply matchSegments_nil_r in Hp; discriminate|].
    destruct sp as [s|n|n], sq as [t|m|m]; simpl in Hc; try discriminate.
    + simpl in Hp, Hq.
      destruct (String.eqb_spec s x); [|discriminate].
      destruct (String.eqb_spec t x); [|discriminate].
      subst. rewrite String.eqb_refl in Hc. simpl in Hc. eapply IH; eauto.
    + clear IH. destruct p; [|discriminate].
      apply negb_false_iff in Hc. apply String.eqb_eq in Hc. subst s.
      destruct x; simpl in Hp; [|discriminate].
      destruct xs; simpl in Hp; [|discriminate].
      simpl in Hq. destruct q; [discriminate|].
      destruct (matchSegments _ _) eqn:E; [|discriminate].
      apply matchSegments_nil_r in E. discriminate.
    + clear IH. destruct q; [|discriminate].
      apply negb_false_iff in Hc. apply String.eqb_eq in Hc. subst t.
      destruct x; simpl in Hq; [|discriminate].
      destruct xs; simpl in Hq; [|discriminate].
      simpl in Hp. destruct p; [discriminate|].
      destruct (matchSegments _ _) eqn:E; [|discriminate].
      apply matchSegments_nil_r in E. discriminate.
    + destruct (String.eqb_spec n m); [|discriminate]. subst m.
      simpl in Hp, Hq.
      destruct p as [|sp' p], q as [|sq' q]; try discriminate Hc.
      * clear IH. destruct (String.eqb x ""); [discriminate Hp|].
        destruct xs; [|discriminate Hp]. destruct sq'; simpl in Hq; discriminate Hq.
      * clear IH. destruct (String.eqb x ""); [discriminate Hq|].
        destruct xs; [|discriminate Hq]. destruct sp'; simpl in Hp; discriminate Hp.
      * destruct (matchSegments (sp' :: p) xs) eqn:Ep; [|discriminate].
        destruct (matchSegments (sq' :: q) xs) eqn:Eq; [|discriminate].
        eapply IH; eauto.
Qed.

Lemma tree_ok_nil : tree_ok [].
Proof. intros i j ri rj _ H. rewrite lookup_nil in H. discriminate. Qed.

Lemma tree_ok_tail (rt : route) (root : list route) :
  tree_ok (rt :: root) -> tree_ok root.
Proof.
  intros H i j ri rj Hij Hi Hj.
  apply (H (S i) (S j) ri rj); [lia | exact Hi | exact Hj].
Qed.

Lemma tree_ok_snoc (root : list route) (rt : route) :
  tree_ok root ->
  existsb (fun r => conflicts (fst r) (fst rt)) root = false ->
  tree_ok (root ++ [rt])%list.
Proof.
  intros Hok Hex i j ri rj Hij Hi Hj.
  assert (Hj' := lookup_lt_Some _ _ _ Hj). rewrite length_app in Hj'. simpl in Hj'.
  rewrite lookup_app_l in Hi by lia.
  destruct (decide (j < length root)%nat) as [Hlt|Hge].
  - rewrite lookup_app_l in Hj by lia. exact (Hok i j ri rj Hij Hi Hj).
  - assert (j = length root) by lia. subst j.
    rewrite lookup_app_r in Hj by lia.
    rewrite Nat.sub_diag in Hj. simpl in Hj. injection Hj as <-.
    destruct (conflicts (fst ri) (fst rt)) eqn:E; [|reflexivity].
    assert (existsb (fun r => conflicts (fst r) (fst rt)) root = true); [|congruence].
    apply existsb_exists. exists ri. split; [|exact E].
    apply list_elem_of_In. eapply list_elem_of_lookup_2; eauto.
Qed.

(** In a tree without collisions, the lookup of a path finds the one
    route whose pattern matches it. *)
Lemma getValue_registered (root : list route) (xs : list string)
    (pat : list segment) (h : HandleFn) (ps : Params) :
  tree_ok root -> In (pat, h) root -> matchSegments pat xs = Some ps ->
  getValue root xs = Some (h, ps).
Proof.
  induction root as [|[q h'] root IH]; intros Hok Hin Hm; [destruct Hin|].
  simpl. destruct Hin as [Heq|Hin].
  - injection Heq as -> ->. rewrite Hm. reflexivity.
  - destruct (matchSegments q xs) as [b|] eqn:Eq.
    + exfalso.
      apply list_elem_of_In, list_elem_of_lookup in Hin. destruct Hin as [j Hj].
      assert (Hc : conflicts q pat = false).
      { apply (Hok 0%nat (S j) (q, h') (pat, h)); [lia | reflexivity | exact Hj]. }
      eapply conflicts_exclusive; eauto.
    + apply IH; auto. eapply tree_ok_tail; eauto.
Qed.

(** A lookup only ever returns a route of the tree, with the parameters
    of its pattern. *)
Lemma getValue_sound (root : list route) (xs : list string)
    (h : HandleFn) (ps : Params) :
  getValue root xs = Some (h, ps) ->
  exists pat, In (pat, h) root /\ matchSegments pat xs = Some ps.
Proof.
  induction root as [|[q h'] root IH]; simpl; [discriminate|].
  destruct (matchSegments q xs) as [b|] eqn:Eq.
  - intros [= <- <-]. exists q. auto.
  - intros H. destruct (IH H) as (pat & Hin & Hm). exists pat. auto.
Qed.

End RouterFacts.

(** ** Registration *)
Section RegistrationFacts.

Lemma Handle_inv (m path : string) (h : HandleFn) (r r' : Router) :
  Handle m path h r = Some r' ->
  exists pat,
    parsePattern path = Some pat /\
    existsb (fun rt => conflicts (fst rt) pat) (tree r m) = false /\
    tree r' m = (tree r m ++ [(pat, h)])%list /\
    (forall m', m' <> m -> tree r' m' = tree r m') /\
    RedirectTrailingSlash r' = RedirectTrailingSlash r /\
    RedirectFixedPath r' = RedirectFixedPath r /\
    HandleOPTIONS r' = HandleOPTIONS r.
Proof.
  unfold Handle. destruct (parsePattern path) as [pat|]; [|discriminate].
  destruct (existsb _ _) eqn:E; [discriminate|].
  intros [= <-]. exists pat.
  split; [reflexivity|]. split; [exact E|]. split; [|split; [|auto]].
  - unfold tree; cbn [trees]. rewrite lookup_insert_eq. reflexivity.
  - intros m' Hne. unfold tree; cbn [trees]. rewrite lookup_insert_ne by congruence.
    reflexivity.
Qed.

Lemma Handle_ok (m path : string) (h : HandleFn) (r r' : Router) :
  Handle m path h r = Some r' -> router_ok r -> router_ok r'.
Proof.
  intros H Hok m'. apply Handle_inv in H.
  destruct H as (pat & _ & Hex & Ht & Hother & _).
  destruct (decide (m' = m)) as [->|Hne].
  - rewrite Ht. apply tree_ok_snoc; [apply Hok | exact Hex].
  - rewrite Hother by exact Hne. apply Hok.
Qed.

Lemma Handle_keeps (m path : string) (h : HandleFn) (r r' : Router) :
  Handle m path h r = Some r' ->
  forall m' rt, In rt (tree r m') -> In rt (tree r' m').
Proof.
  intros H m' rt Hin. apply Handle_inv in H.
  destruct H as (pat & _ & _ & Ht & Hother & _).
  destruct (decide (m' = m)) as [->|Hne].
  - rewrite Ht. apply in_or_app. now left.
  - rewrite Hother by exact Hne. exact Hin.
Qed.

(** A second registration of a (method, pattern) pair panics. *)
Lemma Handle_duplicate (m path : string) (h h' : HandleFn) (r : Router)
    (pat : list segment) :
  parsePattern path = Some pat -> In (pat, h) (tree r m) ->
  Handle m path h' r = None.
Proof.
  intros Hp Hin. unfold Handle. rewrite Hp.
  assert (E : existsb (fun rt => conflicts (fst rt) pat) (tree r m) = true).
  { apply existsb_exists. exists (pat, h). split; [exact Hin|]. apply conflicts_refl. }
  rewrite E. reflexivity.
Qed.

Lemma registerAll_app (a b : list (string * string * HandleFn)) (r : Router) :
  registerAll (a ++ b)%list r =
  match registerAll a r with Some r' => registerAll b r' | None => None end.
Proof.
  revert r. induction a as [|[[m path] h] a IH]; intros r; simpl; [reflexivity|].
  destruct (Handle m path h r); [apply IH | reflexivity].
Qed.

Lemma registerAll_ok (regs : list (string * string * HandleFn)) :
  forall r r', registerAll regs r = Some r' -> router_ok r -> router_ok r'.
Proof.
  induction regs as [|[[m path] h] regs IH]; simpl; intros r r' H Hok.
  - injection H as <-. exact Hok.
  - destruct (Handle m path h r) as [r1|] eqn:E; [|discriminate].
    eapply IH; eauto. eapply Handle_ok; eauto.
Qed.

Lemma registerAll_keeps (regs : list (string * string * HandleFn)) :
  forall r r', registerAll regs r = Some r' ->
  forall m rt, In rt (tree r m) -> In rt (tree r' m).
Proof.
  induction regs as [|[[m path] h] regs IH]; simpl; intros r r' H m' rt Hin.
  - injection H as <-. exact Hin.
  - destruct (Handle m path h r) as [r1|] eqn:E; [|discriminate].
    eapply IH; eauto. eapply Handle_keeps; eauto.
Qed.

(** Every call of a successful registration sequence left its route in
    the tree of its method. *)
Lemma registerAll_registered (regs : list (string * string * HandleFn)) :
  forall r r', registerAll regs r = Some r' ->
  forall m path h, In (m, path, h) regs ->
  exists pat, parsePattern path = Some pat /\ In (pat, h) (tree r' m).
Proof.
  induction regs as [|[[m0 path0] h0] regs IH]; simpl; intros r r' H m path h Hin;
    [destruct Hin|].
  destruct (Handle m0 path0 h0 r) as [r1|] eqn:E; [|discriminate].
  destruct Hin as [Heq|Hin]; [|eapply IH; eauto].
  injection Heq as -> -> ->.
  destruct (Handle_inv _ _ _ _ _ E) as (pat & Hp & _ & Ht & _).
  exists pat. split; [exact Hp|].
  eapply registerAll_keeps; eauto. rewrite Ht. apply in_or_app. right. now left.
Qed.

(** Every route of the final trees was there before or comes from one of
    the calls. *)
Lemma registerAll_only (regs : list (string * string * HandleFn)) :
  forall r r', registerAll regs r = Some r' ->
  forall m pat h, In (pat, h) (tree r' m) ->
  In (pat, h) (tree r m) \/
  exists path, In (m, path, h) regs /\ parsePattern path = Some pat.
Proof.
  induction regs as [|[[m0 path0] h0] regs IH]; simpl; intros r r' H m pat h Hin.
  - injection H as <-. now left.
  - destruct (Handle m0 path0 h0 r) as [r1|] eqn:E; [|discriminate].
    destruct (IH _ _ H _ _ _ Hin) as [Hold|(path & Hreg & Hp)].
    + destruct (Handle_inv _ _ _ _ _ E) as (pat0 & Hp0 & _ & Ht & Hother & _).
      destruct (decide (m = m0)) as [->|Hne].
      * rewrite Ht in Hold. apply in_app_or in Hold. destruct Hold as [Hold|Hnew].
        { now left. }
        { destruct Hnew as [[= <- <-]|[]]. right. exists path0. auto. }
      * rewrite Hother in Hold by exact Hne. now left.
    + right. exists path. auto.
Qed.

(** A pair registered twice makes the sequence panic. *)
Lemma registerAll_duplicate (a b c : list (string * string * HandleFn))
    (m path : string) (h h' : HandleFn) (r : Router) :
  registerAll (a ++ (m, path, h) :: b ++ (m, path, h') :: c)%list r = None.
Proof.
  rewrite registerAll_app.
  destruct (registerAll a r) as [r1|]; [|reflexivity].
  change ((m, path, h) :: b ++ (m, path, h') :: c)%list
    with (((m, path, h) :: b) ++ (m, path, h') :: c)%list.
  rewrite registerAll_app.
  destruct (registerAll ((m, path, h) :: b) r1) as [r2|] eqn:E; [|reflexivity].
  destruct (registerAll_registered _ _ _ E m path h) as (pat & Hp & Hin); [now left|].
  simpl. erewrite Handle_duplicate; eauto.
Qed.

End RegistrationFacts.

(** ** [Setup] as a sequence of registrations *)
Section SetupFacts.

Lemma handleMethods_registerAll (e : config.Endpoint) (ms : list string) :
  forall r,
    handleMethods ms e r =
    registerAll
      (map (fun m => (registeredMethod m, config.Path e, config.Handler e)) ms) r.
Proof.
  induction ms as [|m ms IH]; intros r; simpl; [reflexivity|].
  unfold registeredMethod at 1.
  destruct (Handle _ _ _ r); [apply IH | reflexivity].
Qed.

Lemma setupEndpoints_router (service : string) (eps : list config.Endpoint) :
  forall srv,
    router <$> setupEndpoints service eps srv =
    registerAll (flat_map endpointRegistrations eps) (router srv).
Proof.
  induction eps as [|e eps IH]; intros srv; simpl; [reflexivity|].
  rewrite registerAll_app. unfold handleRPC, endpointRegistrations.
  rewrite handleMethods_registerAll.
  destruct (registerAll _ (router srv)) as [r|]; [|reflexivity].
  rewrite IH. reflexivity.
Qed.

Lemma setupServices_router (svcs : list config.Service) :
  forall srv,
    router <$> setupServices svcs srv =
    registerAll (flat_map endpointRegistrations (flat_map config.Endpoints svcs))
                (router srv).
Proof.
  induction svcs as [|svc svcs IH]; intros srv; simpl; [reflexivity|].
  rewrite flat_map_app, registerAll_app, <- (setupEndpoints_router (config.ServiceName svc)).
  destruct (setupEndpoints _ _ srv) as [srv'|]; simpl; [apply IH | reflexivity].
Qed.

Lemma Setup_router (cfg : config.ServerConfig) :
  router <$> Setup cfg = registerAll (registrations cfg) setupRouter.
Proof. unfold Setup. rewrite setupServices_router. reflexivity. Qed.

Lemma Setup_registerAll (cfg : config.ServerConfig) (srv : Server) :
  Setup cfg = Some srv ->
  registerAll (registrations cfg) setupRouter = Some (router srv).
Proof. intros H. rewrite <- Setup_router, H. reflexivity. Qed.

Lemma setupRouter_ok : router_ok setupRouter.
Proof. intros m. unfold tree; simpl. rewrite lookup_empty. apply tree_ok_nil. Qed.

Lemma Setup_ok (cfg : config.ServerConfig) (srv : Server) :
  Setup cfg = Some srv -> router_ok (router srv).
Proof.
  intros H. eapply registerAll_ok; [apply Setup_registerAll; exact H|].
  apply setupRouter_ok.
Qed.

Lemma endpoint_registrations (cfg : config.ServerConfig) (svc : config.Service)
    (e : config.Endpoint) (m : string) :
  In svc (config.Services cfg) -> In e (config.Endpoints svc) ->
  In m (config.Methods e) ->
  In (registeredMethod m, config.Path e, config.Handler e) (registrations cfg).
Proof.
  intros Hs He Hm. unfold registrations, endpoints.
  apply in_flat_map. exists e. split.
  - apply in_flat_map. exists svc. auto.
  - unfold endpointRegistrations.
    apply (in_map (fun m => (registeredMethod m, config.Path e, config.Handler e))).
    exact Hm.
Qed.

(** After [Setup], looking up a path that matches a registered pattern
    under its method returns that registration's handler and the
    parameters of the match. *)
Lemma Lookup_registered (cfg : config.ServerConfig) (srv : Server)
    (m pattern path : string) (h : HandleFn) (ps : Params) :
  Setup cfg = Some srv -> In (m, pattern, h) (registrations cfg) ->
  matchPath pattern path = Some ps ->
  Lookup (router srv) m path = (Some h, ps, false).
Proof.
  intros HS Hin Hm.
  destruct (registerAll_registered _ _ _ (Setup_registerAll _ _ HS) _ _ _ Hin)
    as (pat & Hp & Hr).
  unfold matchPath in Hm. rewrite Hp in Hm.
  unfold Lookup. destruct (splitPath path) as [xs|]; [|discriminate].
  erewrite getValue_registered; eauto. apply (Setup_ok _ _ HS).
Qed.

(** After [Setup], a lookup returns only handlers of registrations whose
    pattern matches the path. *)
Lemma Lookup_found (cfg : config.ServerConfig) (srv : Server)
    (m path : string) (h : HandleFn) (ps : Params) (tsr : bool) :
  Setup cfg = Some srv -> Lookup (router srv) m path = (Some h, ps, tsr) ->
  exists pattern,
    In (m, pattern, h) (registrations cfg) /\ matchPath pattern path = Some ps.
Proof.
  intros HS HL. unfold Lookup in HL.
  destruct (splitPath path) as [xs|] eqn:Ex; [|discriminate].
  destruct (getValue _ xs) as [[h' ps']|] eqn:Eg; [|discriminate].
  injection HL as <- <- <-.
  destruct (getValue_sound _ _ _ _ Eg) as (pat & Hin & Hm).
  destruct (registerAll_only _ _ _ (Setup_registerAll _ _ HS) _ _ _ Hin)
    as [Hold|(pattern & Hreg & Hp)].
  - unfold tree in Hold; simpl in Hold. rewrite lookup_empty in Hold. destruct Hold.
  - exists pattern. split; [exact Hreg|].
    unfold matchPath. rewrite Hp, Ex. exact Hm.
Qed.

Lemma Setup_flags (cfg : config.ServerConfig) (srv : Server) :
  Setup cfg = Some srv ->
  HandleOPTIONS (router srv) = false /\
  RedirectFixedPath (router srv) = false /\
  RedirectTrailingSlash (router srv) = false.
Proof.
  intros HS. apply Setup_registerAll in HS.
  assert (G : forall regs r r', registerAll regs r = Some r' ->
              HandleOPTIONS r' = HandleOPTIONS r /\
              RedirectFixedPath r' = RedirectFixedPath r /\
              RedirectTrailingSlash r' = RedirectTrailingSlash r).
  { induction regs as [|[[m path] h] regs IH]; simpl; intros r r' H.
    - injection H as <-. auto.
    - destruct (Handle m path h r) as [r1|] eqn:E; [|discriminate].
      destruct (Handle_inv _ _ _ _ _ E) as (_ & _ & _ & _ & _ & H1 & H2 & H3).
      destruct (IH _ _ H) as (K1 & K2 & K3).
      rewrite K1, K2, K3. auto. }
  apply G in HS. exact HS.
Qed.

End SetupFacts.

(** ** The branches of [handler] *)
Section HandlerFacts.

Variable env : metrics.Env.
Variable srv : Server.

Lemma handler_internal (req : http.Request) :
  reserved (http.URL_Path req) = true ->
  handler env srv req =
  if String.eqb (internalName req) "ScrapeMetrics"
  then scrapeMetrics env
  else http.Error ("unknown internal endpoint: " +:+ identifier req) http.StatusNotFound.
Proof.
  unfold reserved, handler, identifier. intros ->. reflexivity.
Qed.

Lemma handler_exact (req : http.Request) (h : HandleFn) (ps : Params) (tsr : bool) :
  reserved (http.URL_Path req) = false ->
  Lookup (router srv) (http.Method req) (http.URL_Path req) = (Some h, ps, tsr) ->
  trace (handler env srv req) =
  [RouterLookup (http.Method req) (http.URL_Path req); Call h ps].
Proof.
  unfold reserved, handler. intros -> HL.
  unfold routerLookup. rewrite HL. reflexivity.
Qed.

Lemma handler_wildcard (req : http.Request) (h : HandleFn) (ps : Params) (tsr : bool) :
  reserved (http.URL_Path req) = false ->
  found (Lookup (router srv) (http.Method req) (http.URL_Path req)) = None ->
  Lookup (router srv) wildcardMethod (http.URL_Path req) = (Some h, ps, tsr) ->
  trace (handler env srv req) =
  [RouterLookup (http.Method req) (http.URL_Path req);
   RouterLookup wildcardMethod (http.URL_Path req);
   Call h ps].
Proof.
  unfold reserved, handler, found. intros -> HE HW.
  unfold routerLookup.
  destruct (Lookup (router srv) (http.Method req) _) as [[h0 p0] t0].
  simpl in HE. subst h0. rewrite HW. reflexivity.
Qed.

End HandlerFacts.

Section MissFacts.

Lemma sliceTo_cut (s : string) :
  match cutFirstDot s with
  | Some (l, r) =>
      strings.IndexByte s "."%char = Z.of_nat (String.length l) /\
      strings.sliceTo (String.length l) s = l /\
      strings.sliceFrom (S (String.length l)) s = r
  | None => strings.IndexByte s "."%char = -1
  end.
Proof.
  induction s as [|c s IH]; simpl; [reflexivity|].
  destruct (Ascii.eqb c "."%char); [simpl; auto|].
  destruct (cutFirstDot s) as [[l r]|].
  - destruct IH as (Hi & Hl & Hr). rewrite Hi.
    destruct (Z.eqb_spec (Z.of_nat (String.length l)) (-1)); [lia|].
    simpl String.length. split; [lia|]. simpl. rewrite Hl. auto.
  - rewrite IH. reflexivity.
Qed.

(** The slicing of [handler] computes the specification's cut. *)
Lemma handler_split (ep : string) :
  (let idx := strings.IndexByte ep "."%char in
   if negb (Z.eqb idx (-1))
   then (strings.sliceTo (Z.to_nat idx) ep, strings.sliceFrom (Z.to_nat (idx + 1)) ep)
   else ("unknown", "Unknown")) = serviceApi ep.
Proof.
  unfold serviceApi. pose proof (sliceTo_cut ep) as H.
  destruct (cutFirstDot ep) as [[l r]|]; simpl.
  - destruct H as (Hi & Hl & Hr). rewrite Hi.
    destruct (Z.eqb_spec (Z.of_nat (String.length l)) (-1)); [lia|]. simpl.
    rewrite Nat2Z.id.
    replace (Z.to_nat (Z.of_nat (String.length l) + 1)) with (S (String.length l)) by lia.
    rewrite Hl, Hr. reflexivity.
  - rewrite H. reflexivity.
Qed.

Lemma cutFirstDot_Some (s l r : string) :
  cutFirstDot s = Some (l, r) <->
  s = l +:+ "." +:+ r /\ strings.IndexByte l "."%char = -1.
Proof.
  revert l. induction s as [|c s IH]; intros l; simpl.
  - split; [discriminate|]. intros [H _]. destruct l; discriminate H.
  - destruct l as [|a l]; rewrite ?append_cons, ?append_nil, ?append_cons, ?append_nil.
    + simpl. destruct (Ascii.eqb_spec c "."%char) as [->|Hc].
      * split; [intros [= <-]; auto | intros [[= <-] _]; reflexivity].
      * split.
        { destruct (cutFirstDot s) as [[l0 r0]|]; discriminate. }
        { intros [[= -> _] _]. contradiction. }
    + simpl. destruct (Ascii.eqb_spec c "."%char) as [->|Hc].
      * split; [discriminate|].
        intros [[= <- _] Hl]. rewrite Ascii.eqb_refl in Hl. discriminate Hl.
      * specialize (IH l). split.
        { destruct (cutFirstDot s) as [[l0 r0]|]; [|discriminate].
          intros [= <- <- <-]. destruct (proj1 IH eq_refl) as [-> Hl].
          split; [reflexivity|].
          destruct (Ascii.eqb_spec c "."%char); [contradiction|].
          rewrite Hl. reflexivity. }
        { intros [[= <- ->] Hl].
          destruct (Ascii.eqb_spec c "."%char); [contradiction|].
          destruct (Z.eqb_spec (strings.IndexByte l "."%char) (-1)) as [Hl'|];
            [|pose proof (IndexByte_range l "."%char); lia].
          rewrite (proj2 IH (conj eq_refl Hl')). reflexivity. }
Qed.

Lemma cutFirstDot_None (s : string) :
  cutFirstDot s = None <-> strings.IndexByte s "."%char = -1.
Proof.
  pose proof (sliceTo_cut s) as H.
  destruct (cutFirstDot s) as [[l r]|]; split; try discriminate; auto.
  destruct H as [H _]. lia.
Qed.

Lemma handler_miss (env : metrics.Env) (srv : Server) (req : http.Request) :
  reserved (http.URL_Path req) = false ->
  found (Lookup (router srv) (http.Method req) (http.URL_Path req)) = None ->
  found (Lookup (router srv) wildcardMethod (http.URL_Path req)) = None ->
  trace (handler env srv req) =
  (RouterLookup (http.Method req) (http.URL_Path req)
   :: RouterLookup wildcardMethod (http.URL_Path req)
   :: missActions (identifier req)).
Proof.
  unfold reserved, handler, found. intros -> HE HW.
  unfold routerLookup.
  destruct (Lookup (router srv) (http.Method req) _) as [[h0 p0] t0].
  simpl in HE. subst h0.
  destruct (Lookup (router srv) wildcardMethod _) as [[h1 p1] t1].
  simpl in HW. subst h1.
  unfold missActions, identifier. rewrite <- handler_split.
  cbv zeta.
  destruct (negb _); reflexivity.
Qed.

End MissFacts.

(** ** The internal namespace *)
Section InternalFacts.

Lemma HasPrefix_split (s p : string) :
  strings.HasPrefix s p = true -> s = p +:+ strings.sliceFrom (String.length p) s.
Proof.
  revert s. induction p as [|a p IH]; intros s; simpl; [reflexivity|].
  destruct s as [|b s]; [discriminate|].
  destruct (Ascii.eqb_spec a b) as [->|]; [|discriminate]. simpl.
  intros H. rewrite append_cons. f_equal. apply IH. exact H.
Qed.

Lemma Error_quiet (msg : string) (code : Z) :
  code = 404 \/ code = 500 -> Forall quiet (trace (http.Error msg code)).
Proof.
  intros H. unfold http.Error, trace, bind, emit; simpl.
  repeat (apply Forall_cons; split; [simpl; auto|]). apply Forall_nil_2.
Qed.

Lemma encodeAll_quiet (env : metrics.Env) (mfs : list metrics.MetricFamily) :
  Forall quiet (trace (encodeAll env mfs)).
Proof.
  induction mfs as [|mf mfs IH]; simpl; [constructor|].
  destruct (metrics.Encode env mf) as [bytes|err].
  - unfold trace, bind, emit in *. destruct (encodeAll env mfs) as [[] t]. simpl in *.
    constructor; [exact I | exact IH].
  - apply Error_quiet. now right.
Qed.

Lemma scrapeMetrics_quiet (env : metrics.Env) :
  Forall quiet (trace (scrapeMetrics env)).
Proof.
  unfold scrapeMetrics. destruct (metrics.Gather env) as [mfs|err].
  - apply encodeAll_quiet.
  - apply Error_quiet. now right.
Qed.

Lemma quiet_lookups (t : list Event) : Forall quiet t -> lookups t = [].
Proof.
  induction 1 as [|e t He _ IH]; [reflexivity|].
  destruct e; simpl in He; try contradiction; exact IH.
Qed.

Lemma quiet_calls (t : list Event) : Forall quiet t -> calls t = [].
Proof.
  induction 1 as [|e t He _ IH]; [reflexivity|].
  destruct e; simpl in He; try contradiction; exact IH.
Qed.

Lemma quiet_increments (t : list Event) : Forall quiet t -> increments t = [].
Proof.
  induction 1 as [|e t He _ IH]; [reflexivity|].
  destruct e; simpl in He; try contradiction; exact IH.
Qed.

Lemma internal_quiet (env : metrics.Env) (srv : Server) (req : http.Request) :
  reserved (http.URL_Path req) = true -> Forall quiet (trace (handler env srv req)).
Proof.
  intros H. rewrite (handler_internal env srv req H).
  destruct (String.eqb _ _); [apply scrapeMetrics_quiet | apply Error_quiet; now left].
Qed.

End InternalFacts.

(** C4.  A request whose path, after stripping the leading ['/'], begins
    with ["__encore."] is handled in the reserved internal namespace and
    the dispatcher returns without consulting the router (no lookup, no
    handler call, no counter increment); a request to
    [/__encore.ScrapeMetrics] runs the metrics scrape, whatever is
    registered in the router. *)
Theorem internal_namespace_first (env : metrics.Env) (srv : Server) (req : http.Request) :
  strings.HasPrefix (strings.TrimPrefix (http.URL_Path req) "/") "__encore." = true ->
  lookups (trace (handler env srv req)) = [] /\
  calls (trace (handler env srv req)) = [] /\
  increments (trace (handler env srv req)) = [] /\
  handler env srv req =
    (if String.eqb (internalName req) "ScrapeMetrics"
     then scrapeMetrics env
     else http.Error ("unknown internal endpoint: " +:+ identifier req) http.StatusNotFound) /\
  (http.URL_Path req = "/__encore.ScrapeMetrics" -> handler env srv req = scrapeMetrics env).
Proof.
  intros H. pose proof (internal_quiet env srv req H) as Q.
  split; [apply quiet_lookups, Q|].
  split; [apply quiet_calls, Q|].
  split; [apply quiet_increments, Q|].
  split; [apply (handler_internal env srv req H)|].
  intros Hp. rewrite (handler_internal env srv req H).
  unfold internalName, identifier. rewrite Hp. reflexivity.
Qed.

(** The metrics scrape wins over a user endpoint registered at
    [/__encore.ScrapeMetrics]. *)
Lemma internal_namespace_first_witness :
  let srv := serverOf Samples.shadow in
  let req := http.mkRequest "GET" "/__encore.ScrapeMetrics" in
  Setup Samples.shadow = Some srv /\
  Lookup (router srv) "GET" "/__encore.ScrapeMetrics" = (Some (Fn 7), [], false) /\
  trace (handler Samples.env srv req) = [Write "requests_total 3"; Write "up 1"] /\
  lookups (trace (handler Samples.env srv req)) = [].
Proof.
  intros srv req.
  split; [vm_compute; reflexivity|].
  split; [vm_compute; reflexivity|].
  destruct (internal_namespace_first Samples.env srv req) as (HL & _ & _ & _ & HS);
    [vm_compute; reflexivity|].
  split; [|exact HL].
  rewrite HS; [vm_compute; reflexivity | reflexivity].
Defined.

(** ** The routing miss *)
Section NotFoundFacts.

(** After [Setup], a lookup under a method none of whose registered
    patterns matches the path returns no handler. *)
Lemma Lookup_unregistered (cfg : config.ServerConfig) (srv : Server)
    (m path : string) :
  Setup cfg = Some srv ->
  (forall pattern h, In (m, pattern, h) (registrations cfg) ->
                     matchPath pattern path = None) ->
  found (Lookup (router srv) m path) = None.
Proof.
  intros HS Hno.
  destruct (Lookup (router srv) m path) as [[[h|] ps] tsr] eqn:E; [|reflexivity].
  destruct (Lookup_found _ _ _ _ _ _ _ HS E) as (pattern & Hin & Hm).
  rewrite (Hno _ _ Hin) in Hm. discriminate Hm.
Qed.

Lemma notFoundBody_block : notFoundBody = unlines notFoundBlock.
Proof. reflexivity. Qed.

Lemma response_miss (m1 p1 m2 p2 ep : string) :
  response (RouterLookup m1 p1 :: RouterLookup m2 p2 :: missActions ep) =
  {| status := Some 404;
     header := {[ "Content-Type" := "application/json" ]};
     body := notFoundBody |}.
Proof. reflexivity. Qed.

End NotFoundFacts.

(** C5.  A request outside the reserved namespace for which neither the
    exact-method lookup nor the wildcard lookup returns a handler is
    answered with status 404, [Content-Type: application/json] and exactly
    the bytes of the specification's not-found block. *)
Theorem not_found_response (env : metrics.Env) (srv : Server) (req : http.Request) :
  strings.HasPrefix (strings.TrimPrefix (http.URL_Path req) "/") "__encore." = false ->
  found (Lookup (router srv) (http.Method req) (http.URL_Path req)) = None ->
  found (Lookup (router srv) wildcardMethod (http.URL_Path req)) = None ->
  response (trace (handler env srv req)) =
  {| status := Some 404;
     header := {[ "Content-Type" := "application/json" ]};
     body := unlines notFoundBlock |}.
Proof.
  intros Hres HE HW.
  rewrite handler_miss by assumption.
  rewrite response_miss, notFoundBody_block. reflexivity.
Qed.

Lemma not_found_response_witness :
  response (trace (handler Samples.env (serverOf Samples.orders)
                     (http.mkRequest "DELETE" "/orders/17"))) =
  {| status := Some 404;
     header := {[ "Content-Type" := "application/json" ]};
     body := unlines notFoundBlock |}.
Proof.
  apply (not_found_response Samples.env (serverOf Samples.orders)
           (http.mkRequest "DELETE" "/orders/17")).
  - vm_compute; reflexivity.
  - vm_compute; reflexivity.
  - vm_compute; reflexivity.
Defined.

(** The same reply, in terms of the configuration: after [Setup], a request
    outside the reserved namespace whose path matches no pattern
    registered under its method or under the wildcard marker. *)
Lemma not_found_unregistered (env : metrics.Env) (cfg : config.ServerConfig)
    (srv : Server) (req : http.Request) :
  Setup cfg = Some srv ->
  reserved (http.URL_Path req) = false ->
  (forall m pattern h,
     In (m, pattern, h) (registrations cfg) ->
     m = http.Method req \/ m = wildcardMethod ->
     matchPath pattern (http.URL_Path req) = None) ->
  response (trace (handler env srv req)) =
  {| status := Some 404;
     header := {[ "Content-Type" := "application/json" ]};
     body := unlines notFoundBlock |}.
Proof.
  intros HS Hres Hno.
  rewrite handler_miss.
  - rewrite response_miss, notFoundBody_block. reflexivity.
  - exact Hres.
  - eapply Lookup_unregistered; eauto.
  - eapply Lookup_unregistered; eauto.
Qed.

(** C6.  A request that falls through to the routing-miss branch
    increments the unknown-endpoint counter exactly once, with the pair
    obtained by cutting the identifier (the path without its leading
    ['/']) at its first ['.'], or with [("unknown", "Unknown")] when the
    identifier has no dot. *)
Theorem unknown_endpoint_counter (env : metrics.Env) (srv : Server) (req : http.Request) :
  strings.HasPrefix (strings.TrimPrefix (http.URL_Path req) "/") "__encore." = false ->
  found (Lookup (router srv) (http.Method req) (http.URL_Path req)) = None ->
  found (Lookup (router srv) wildcardMethod (http.URL_Path req)) = None ->
  increments (trace (handler env srv req)) = [serviceApi (identifier req)] /\
  (forall svc api,
     identifier req = svc +:+ "." +:+ api -> strings.IndexByte svc "."%char = -1 ->
     serviceApi (identifier req) = (svc, api)) /\
  (strings.IndexByte (identifier req) "."%char = -1 ->
   serviceApi (identifier req) = ("unknown", "Unknown")) /\
  (http.URL_Path req = "/orders.Create" ->
   increments (trace (handler env srv req)) = [("orders", "Create")]) /\
  (http.URL_Path req = "/bogus" ->
   increments (trace (handler env srv req)) = [("unknown", "Unknown")]).
Proof.
  intros Hres HE HW.
  assert (Hinc : increments (trace (handler env srv req)) = [serviceApi (identifier req)]).
  { rewrite handler_miss by assumption. unfold missActions, increments. simpl.
    destruct (serviceApi (identifier req)); reflexivity. }
  split; [exact Hinc|].
  split.
  { intros svc api Hid Hsvc. unfold serviceApi.
    rewrite (proj2 (cutFirstDot_Some _ svc api) (conj Hid Hsvc)). reflexivity. }
  split.
  { intros Hno. unfold serviceApi.
    rewrite (proj2 (cutFirstDot_None _) Hno). reflexivity. }
  split; intros Hp; rewrite Hinc; unfold identifier; rewrite Hp; reflexivity.
Qed.

Lemma unknown_endpoint_counter_witness :
  let srv := serverOf Samples.orders in
  increments (trace (handler Samples.env srv (http.mkRequest "GET" "/orders.Create")))
    = [("orders", "Create")] /\
  increments (trace (handler Samples.env srv (http.mkRequest "GET" "/bogus")))
    = [("unknown", "Unknown")] /\
  increments (trace (handler Samples.env srv (http.mkRequest "PUT" "/a.b.c")))
    = [("a", "b.c")].
Proof.
  intros srv. split; [|split].
  - apply (unknown_endpoint_counter Samples.env srv (http.mkRequest "GET" "/orders.Create"));
      vm_compute; reflexivity.
  - apply (unknown_endpoint_counter Samples.env srv (http.mkRequest "GET" "/bogus"));
      vm_compute; reflexivity.
  - destruct (unknown_endpoint_counter Samples.env srv (http.mkRequest "PUT" "/a.b.c"))
      as (H & _); [vm_compute; reflexivity ..|].
    rewrite H. vm_compute; reflexivity.
Defined.

(** ** Unknown internal endpoints *)

(** C7, as stated, fails: the body written for [/__encore.NotARealAPI] is
    not ["unknown internal endpoint: NotARealAPI"]; the message carries the
    whole identifier, reserved prefix included, and [http.Error] ends it
    with a newline. *)
Lemma unknown_internal_name_only_counterexample :
  let srv := serverOf Samples.empty in
  let req := http.mkRequest "GET" "/__encore.NotARealAPI" in
  internalName req = "NotARealAPI" /\
  body (response (trace (handler Samples.env srv req)))
    <> "unknown internal endpoint: NotARealAPI" /\
  body (response (trace (handler Samples.env srv req)))
    = "unknown internal endpoint: __encore.NotARealAPI" +:+ http.LF.
Proof.
  intros srv req. split; [reflexivity|]. split.
  - vm_compute. discriminate.
  - vm_compute. reflexivity.
Qed.

(** C7, amended.  A request to a reserved-namespace path whose name after
    ["__encore."] is not [ScrapeMetrics] is answered with status 404 and a
    plain-text body: ["unknown internal endpoint: "], then the whole
    identifier (["__encore."] followed by the name), then a newline. *)
Theorem unknown_internal_endpoint (env : metrics.Env) (srv : Server) (req : http.Request) :
  strings.HasPrefix (strings.TrimPrefix (http.URL_Path req) "/") "__encore." = true ->
  internalName req <> "ScrapeMetrics" ->
  response (trace (handler env srv req)) =
  {| status := Some 404;
     header := {[ "Content-Type" := "text/plain; charset=utf-8";
                  "X-Content-Type-Options" := "nosniff" ]};
     body := "unknown internal endpoint: " +:+ "__encore." +:+ internalName req +:+ http.LF |}.
Proof.
  intros Hres Hname.
  rewrite (handler_internal env srv req Hres).
  destruct (String.eqb_spec (internalName req) "ScrapeMetrics") as [E|_]; [contradiction|].
  rewrite <- (append_assoc "__encore." (internalName req) http.LF).
  unfold internalName. unfold identifier at 2.
  rewrite <- (HasPrefix_split _ _ Hres). fold (identifier req).
  reflexivity.
Qed.

Lemma unknown_internal_endpoint_witness :
  response (trace (handler Samples.env (serverOf Samples.empty)
                     (http.mkRequest "POST" "/__encore.NotARealAPI"))) =
  {| status := Some 404;
     header := {[ "Content-Type" := "text/plain; charset=utf-8";
                  "X-Content-Type-Options" := "nosniff" ]};
     body := "unknown internal endpoint: __encore.NotARealAPI" +:+ http.LF |}.
Proof.
  apply (unknown_internal_endpoint Samples.env (serverOf Samples.empty)
           (http.mkRequest "POST" "/__encore.NotARealAPI")).
  - vm_compute; reflexivity.
  - vm_compute; discriminate.
Defined.

(** ** Dispatch to registered endpoints *)

(** C1, as stated, fails: [/:page] is registered under [GET], the path
    [/__encore.docs] matches it, and the request [GET /__encore.docs] is
    answered in the internal namespace; the endpoint's handler is not
    called. *)
Lemma exact_method_dispatch_counterexample :
  Setup Samples.pages = Some (serverOf Samples.pages) /\
  In ("GET", "/:page", Fn 1) (registrations Samples.pages) /\
  matchPath "/:page" "/__encore.docs" = Some [mkParam "page" "__encore.docs"] /\
  ~ dispatches
      (trace (handler Samples.env (serverOf Samples.pages)
                (http.mkRequest "GET" "/__encore.docs")))
      (Fn 1) [mkParam "page" "__encore.docs"] /\
  calls (trace (handler Samples.env (serverOf Samples.pages)
                  (http.mkRequest "GET" "/__encore.docs"))) = [] /\
  body (response (trace (handler Samples.env (serverOf Samples.pages)
                           (http.mkRequest "GET" "/__encore.docs"))))
    = "unknown internal endpoint: __encore.docs" +:+ http.LF.
Proof.
  split; [vm_compute; reflexivity|].
  split; [vm_compute; auto|].
  split; [vm_compute; reflexivity|].
  split; [vm_compute; discriminate|].
  split; vm_compute; reflexivity.
Qed.

(** The run of a request that matches a registration under its own,
    concrete, method outside the reserved namespace. *)
Lemma registered_exact_run (env : metrics.Env) (cfg : config.ServerConfig)
    (srv : Server) (svc : config.Service) (e : config.Endpoint)
    (m path : string) (ps : Params) :
  Setup cfg = Some srv ->
  In svc (config.Services cfg) -> In e (config.Endpoints svc) ->
  In m (config.Methods e) -> m <> "*" ->
  matchPath (config.Path e) path = Some ps ->
  reserved path = false ->
  trace (handler env srv (http.mkRequest m path)) =
    [RouterLookup m path; Call (config.Handler e) ps].
Proof.
  intros HS Hsvc He Hm Hstar Hmatch Hres.
  pose proof (endpoint_registrations cfg svc e m Hsvc He Hm) as Hreg.
  unfold registeredMethod in Hreg.
  destruct (String.eqb_spec m "*") as [->|_]; [contradiction|].
  pose proof (Lookup_registered _ _ _ _ _ _ _ HS Hreg Hmatch) as HL.
  apply (handler_exact env srv (http.mkRequest m path) _ _ false); assumption.
Qed.

(** C1, amended.  For every (method, path) pair registered from the
    configuration with a concrete method, a request with that method and a
    path that matches the pattern and lies outside the reserved
    ["__encore."] namespace is dispatched, after the one exact-method
    lookup, to the endpoint's handler with the parameters extracted from
    the path. *)
Theorem exact_method_dispatch (env : metrics.Env) (cfg : config.ServerConfig)
    (srv : Server) (svc : config.Service) (e : config.Endpoint)
    (m path : string) (ps : Params) :
  Setup cfg = Some srv ->
  In svc (config.Services cfg) -> In e (config.Endpoints svc) ->
  In m (config.Methods e) -> m <> "*" ->
  matchPath (config.Path e) path = Some ps ->
  strings.HasPrefix (strings.TrimPrefix path "/") "__encore." = false ->
  trace (handler env srv (http.mkRequest m path)) =
    [RouterLookup m path; Call (config.Handler e) ps] /\
  dispatches (trace (handler env srv (http.mkRequest m path))) (config.Handler e) ps.
Proof.
  intros HS Hsvc He Hm Hstar Hmatch Hres.
  pose proof (registered_exact_run env cfg srv svc e m path ps
                HS Hsvc He Hm Hstar Hmatch Hres) as T.
  split; [exact T|]. unfold dispatches. rewrite T. reflexivity.
Qed.

Lemma exact_method_dispatch_witness :
  trace (handler Samples.env (serverOf Samples.orders) (http.mkRequest "GET" "/orders/17")) =
    [RouterLookup "GET" "/orders/17"; Call (Fn 2) [mkParam "id" "17"]] /\
  dispatches
    (trace (handler Samples.env (serverOf Samples.orders) (http.mkRequest "GET" "/orders/17")))
    (Fn 2) [mkParam "id" "17"].
Proof.
  apply (exact_method_dispatch Samples.env Samples.orders (serverOf Samples.orders)
           (config.mkService "orders"
              [config.mkEndpoint "Create" "/orders.Create" ["POST"] (Fn 1);
               config.mkEndpoint "Get" "/orders/:id" ["GET"] (Fn 2);
               config.mkEndpoint "Any" "/orders/:id/raw" ["GET"; "*"] (Fn 3)])
           (config.mkEndpoint "Get" "/orders/:id" ["GET"] (Fn 2))
           "GET" "/orders/17" [mkParam "id" "17"]).
  - vm_compute; reflexivity.
  - simpl; auto.
  - simpl; auto.
  - simpl; auto.
  - discriminate.
  - vm_compute; reflexivity.
  - vm_compute; reflexivity.
Defined.

(** C2, as stated, fails: [/:page] is registered under [GET] and under the
    wildcard marker, and the request [GET /__encore.status] resolves to
    neither handler: no lookup takes place. *)
Lemma exact_before_wildcard_counterexample :
  Setup Samples.pagesBoth = Some (serverOf Samples.pagesBoth) /\
  In ("GET", "/:page", Fn 1) (registrations Samples.pagesBoth) /\
  In (wildcardMethod, "/:page", Fn 2) (registrations Samples.pagesBoth) /\
  matchPath "/:page" "/__encore.status" = Some [mkParam "page" "__encore.status"] /\
  ~ dispatches
      (trace (handler Samples.env (serverOf Samples.pagesBoth)
                (http.mkRequest "GET" "/__encore.status")))
      (Fn 1) [mkParam "page" "__encore.status"] /\
  trace (handler Samples.env (serverOf Samples.pagesBoth)
           (http.mkRequest "GET" "/__encore.status"))
    = trace (http.Error "unknown internal endpoint: __encore.status" 404).
Proof.
  split; [vm_compute; reflexivity|].
  split; [vm_compute; auto|].
  split; [vm_compute; auto|].
  split; [vm_compute; reflexivity|].
  split; [vm_compute; discriminate|].
  vm_compute; reflexivity.
Qed.

(** The lookups of a run: none in the reserved namespace; otherwise the
    exact-method lookup, followed by the wildcard lookup only when the
    exact-method lookup returned no handler. *)
Lemma handler_lookups (env : metrics.Env) (srv : Server) (req : http.Request) :
  lookups (trace (handler env srv req)) =
  if reserved (http.URL_Path req) then []
  else match found (Lookup (router srv) (http.Method req) (http.URL_Path req)) with
       | Some _ => [(http.Method req, http.URL_Path req)]
       | None => [(http.Method req, http.URL_Path req);
                  (wildcardMethod, http.URL_Path req)]
       end.
Proof.
  destruct (reserved (http.URL_Path req)) eqn:Hres.
  - apply quiet_lookups, internal_quiet, Hres.
  - destruct (Lookup (router srv) (http.Method req) (http.URL_Path req))
      as [[[h|] ps] tsr] eqn:HE; simpl.
    + rewrite (handler_exact env srv req h ps tsr Hres HE). reflexivity.
    + destruct (Lookup (router srv) wildcardMethod (http.URL_Path req))
        as [[[h|] ps'] tsr'] eqn:HW.
      * rewrite (handler_wildcard env srv req h ps' tsr' Hres); [reflexivity| |exact HW].
        rewrite HE. reflexivity.
      * rewrite handler_miss; [reflexivity|exact Hres| |].
        { rewrite HE. reflexivity. }
        { rewrite HW. reflexivity. }
Qed.

(** C2, amended.  When a path is registered both under a concrete method
    and under the wildcard marker, a request with that method and a
    matching path outside the reserved namespace resolves to the
    exact-method handler, and the wildcard lookup is not attempted; in
    every run the wildcard lookup follows the exact-method lookup only
    when the latter returned no handler. *)
Theorem exact_before_wildcard (env : metrics.Env) (cfg : config.ServerConfig)
    (srv : Server) (svc1 svc2 : config.Service) (e1 e2 : config.Endpoint)
    (m path : string) (ps : Params) :
  Setup cfg = Some srv ->
  In svc1 (config.Services cfg) -> In e1 (config.Endpoints svc1) ->
  In m (config.Methods e1) -> m <> "*" ->
  In svc2 (config.Services cfg) -> In e2 (config.Endpoints svc2) ->
  In "*" (config.Methods e2) -> config.Path e2 = config.Path e1 ->
  matchPath (config.Path e1) path = Some ps ->
  strings.HasPrefix (strings.TrimPrefix path "/") "__encore." = false ->
  dispatches (trace (handler env srv (http.mkRequest m path))) (config.Handler e1) ps /\
  lookups (trace (handler env srv (http.mkRequest m path))) = [(m, path)] /\
  (forall (srv' : Server) (req : http.Request),
     lookups (trace (handler env srv' req)) =
     if reserved (http.URL_Path req) then []
     else match found (Lookup (router srv') (http.Method req) (http.URL_Path req)) with
          | Some _ => [(http.Method req, http.URL_Path req)]
          | None => [(http.Method req, http.URL_Path req);
                     (wildcardMethod, http.URL_Path req)]
          end).
Proof.
  intros HS Hs1 He1 Hm Hstar _ _ _ _ Hmatch Hres.
  pose proof (registered_exact_run env cfg srv svc1 e1 m path ps
                HS Hs1 He1 Hm Hstar Hmatch Hres) as T.
  split; [unfold dispatches; rewrite T; reflexivity|].
  split; [rewrite T; reflexivity|].
  intros srv' req. apply handler_lookups.
Qed.

Lemma exact_before_wildcard_witness :
  dispatches
    (trace (handler Samples.env (serverOf Samples.orders)
              (http.mkRequest "GET" "/orders/17/raw")))
    (Fn 3) [mkParam "id" "17"] /\
  lookups (trace (handler Samples.env (serverOf Samples.orders)
                    (http.mkRequest "GET" "/orders/17/raw")))
    = [("GET", "/orders/17/raw")].
Proof.
  destruct (exact_before_wildcard Samples.env Samples.orders (serverOf Samples.orders)
              (config.mkService "orders"
                 [config.mkEndpoint "Create" "/orders.Create" ["POST"] (Fn 1);
                  config.mkEndpoint "Get" "/orders/:id" ["GET"] (Fn 2);
                  config.mkEndpoint "Any" "/orders/:id/raw" ["GET"; "*"] (Fn 3)])
              (config.mkService "orders"
                 [config.mkEndpoint "Create" "/orders.Create" ["POST"] (Fn 1);
                  config.mkEndpoint "Get" "/orders/:id" ["GET"] (Fn 2);
                  config.mkEndpoint "Any" "/orders/:id/raw" ["GET"; "*"] (Fn 3)])
              (config.mkEndpoint "Any" "/orders/:id/raw" ["GET"; "*"] (Fn 3))
              (config.mkEndpoint "Any" "/orders/:id/raw" ["GET"; "*"] (Fn 3))
              "GET" "/orders/17/raw" [mkParam "id" "17"]) as (D & L & _).
  - vm_compute; reflexivity.
  - simpl; auto.
  - simpl; auto.
  - simpl; auto.
  - discriminate.
  - simpl; auto.
  - simpl; auto.
  - simpl; auto.
  - reflexivity.
  - vm_compute; reflexivity.
  - vm_compute; reflexivity.
  - split; [exact D | exact L].
Defined.

(** C3, as stated, fails: the catch-all endpoint [/*path] is registered
    under the wildcard marker only, nothing is registered under [POST],
    the path [/__encore.ScrapeMetrics] matches the pattern, and the request
    [POST /__encore.ScrapeMetrics] runs the metrics scrape instead of the
    endpoint's handler. *)
Lemma wildcard_dispatch_counterexample :
  Setup Samples.proxy = Some (serverOf Samples.proxy) /\
  registrations Samples.proxy = [(wildcardMethod, "/*path", Fn 5)] /\
  matchPath "/*path" "/__encore.ScrapeMetrics"
    = Some [mkParam "path" "/__encore.ScrapeMetrics"] /\
  ~ dispatches
      (trace (handler Samples.env (serverOf Samples.proxy)
                (http.mkRequest "POST" "/__encore.ScrapeMetrics")))
      (Fn 5) [mkParam "path" "/__encore.ScrapeMetrics"] /\
  handler Samples.env (serverOf Samples.proxy)
    (http.mkRequest "POST" "/__encore.ScrapeMetrics")
    = scrapeMetrics Samples.env.
Proof.
  split; [vm_compute; reflexivity|].
  split; [vm_compute; reflexivity|].
  split; [vm_compute; reflexivity|].
  split; [vm_compute; discriminate|].
  vm_compute; reflexivity.
Qed.

(** C3, amended.  For every endpoint whose method set contains ["*"], a
    request with any method and a path that matches the endpoint's pattern
    and lies outside the reserved namespace resolves to the endpoint's
    handler, by the wildcard lookup that follows the exact-method one,
    provided no registration under the request's own method matches the
    path. *)
Theorem wildcard_dispatch (env : metrics.Env) (cfg : config.ServerConfig)
    (srv : Server) (svc : config.Service) (e : config.Endpoint)
    (m path : string) (ps : Params) :
  Setup cfg = Some srv ->
  In svc (config.Services cfg) -> In e (config.Endpoints svc) ->
  In "*" (config.Methods e) ->
  matchPath (config.Path e) path = Some ps ->
  (forall pattern h, In (m, pattern, h) (registrations cfg) ->
                     matchPath pattern path = None) ->
  strings.HasPrefix (strings.TrimPrefix path "/") "__encore." = false ->
  trace (handler env srv (http.mkRequest m path)) =
    [RouterLookup m path; RouterLookup wildcardMethod path; Call (config.Handler e) ps] /\
  dispatches (trace (handler env srv (http.mkRequest m path))) (config.Handler e) ps.
Proof.
  intros HS Hsvc He Hm Hmatch Hno Hres.
  pose proof (endpoint_registrations cfg svc e "*" Hsvc He Hm) as Hreg.
  change (registeredMethod "*") with wildcardMethod in Hreg.
  pose proof (Lookup_registered _ _ _ _ _ _ _ HS Hreg Hmatch) as HW.
  pose proof (Lookup_unregistered cfg srv m path HS Hno) as HE.
  assert (T : trace (handler env srv (http.mkRequest m path)) =
              [RouterLookup m path; RouterLookup wildcardMethod path;
               Call (config.Handler e) ps]).
  { apply (handler_wildcard env srv (http.mkRequest m path) _ _ false); assumption. }
  split; [exact T|]. unfold dispatches. rewrite T. reflexivity.
Qed.

Lemma wildcard_dispatch_witness :
  trace (handler Samples.env (serverOf Samples.orders)
           (http.mkRequest "DELETE" "/orders/17/raw")) =
    [RouterLookup "DELETE" "/orders/17/raw";
     RouterLookup wildcardMethod "/orders/17/raw";
     Call (Fn 3) [mkParam "id" "17"]] /\
  dispatches
    (trace (handler Samples.env (serverOf Samples.orders)
              (http.mkRequest "DELETE" "/orders/17/raw")))
    (Fn 3) [mkParam "id" "17"].
Proof.
  apply (wildcard_dispatch Samples.env Samples.orders (serverOf Samples.orders)
           (config.mkService "orders"
              [config.mkEndpoint "Create" "/orders.Create" ["POST"] (Fn 1);
               config.mkEndpoint "Get" "/orders/:id" ["GET"] (Fn 2);
               config.mkEndpoint "Any" "/orders/:id/raw" ["GET"; "*"] (Fn 3)])
           (config.mkEndpoint "Any" "/orders/:id/raw" ["GET"; "*"] (Fn 3))
           "DELETE" "/orders/17/raw" [mkParam "id" "17"]).
  - vm_compute; reflexivity.
  - simpl; auto.
  - simpl; auto.
  - simpl; auto.
  - vm_compute; reflexivity.
  - intros pattern h Hin. vm_compute in Hin.
    repeat (destruct Hin as [Hin|Hin]; [discriminate Hin|]). destruct Hin.
  - vm_compute; reflexivity.
Defined.

(** ** Duplicate registrations *)
Section DuplicateFacts.

Lemma registrations_split (l1 l2 l3 : list config.Endpoint) (e1 e2 : config.Endpoint) :
  flat_map endpointRegistrations (l1 ++ e1 :: l2 ++ e2 :: l3)%list =
  (flat_map endpointRegistrations l1 ++ endpointRegistrations e1 ++
   flat_map endpointRegistrations l2 ++ endpointRegistrations e2 ++
   flat_map endpointRegistrations l3)%list.
Proof.
  rewrite flat_map_app. simpl. rewrite flat_map_app. simpl. reflexivity.
Qed.

Lemma endpointRegistrations_split (e : config.Endpoint) (m : string) :
  In m (config.Methods e) ->
  exists a b,
    endpointRegistrations e =
    (a ++ (registeredMethod m, config.Path e, config.Handler e) :: b)%list.
Proof.
  intros Hin. apply in_split. unfold endpointRegistrations.
  apply (in_map (fun m => (registeredMethod m, config.Path e, config.Handler e))).
  exact Hin.
Qed.

Lemma Setup_None (cfg : config.ServerConfig) :
  registerAll (registrations cfg) setupRouter = None -> Setup cfg = None.
Proof.
  intros H. pose proof (Setup_router cfg) as E. rewrite H in E.
  destruct (Setup cfg); [discriminate E | reflexivity].
Qed.

End DuplicateFacts.

(** C8.  When two endpoints of the configuration register the same
    (method, path pattern) pair, [Setup] does not complete: it panics
    during registration, before a server exists to listen, instead of
    keeping the last registration. *)
Theorem duplicate_registration_fails (cfg : config.ServerConfig)
    (before between after : list config.Endpoint) (e1 e2 : config.Endpoint)
    (m1 m2 : string) :
  endpoints cfg = (before ++ e1 :: between ++ e2 :: after)%list ->
  In m1 (config.Methods e1) -> In m2 (config.Methods e2) ->
  registeredMethod m1 = registeredMethod m2 ->
  config.Path e1 = config.Path e2 ->
  Setup cfg = None.
Proof.
  intros Heps H1 H2 Hm Hp.
  apply Setup_None. unfold registrations. rewrite Heps, registrations_split.
  destruct (endpointRegistrations_split e1 m1 H1) as (a1 & b1 & ->).
  destruct (endpointRegistrations_split e2 m2 H2) as (a2 & b2 & ->).
  rewrite Hm, Hp.
  set (x := (registeredMethod m2, config.Path e2, config.Handler e1)).
  set (y := (registeredMethod m2, config.Path e2, config.Handler e2)).
  replace (flat_map endpointRegistrations before ++ (a1 ++ x :: b1) ++
           flat_map endpointRegistrations between ++ (a2 ++ y :: b2) ++
           flat_map endpointRegistrations after)%list
    with ((flat_map endpointRegistrations before ++ a1) ++ x ::
          (b1 ++ flat_map endpointRegistrations between ++ a2) ++ y ::
          (b2 ++ flat_map endpointRegistrations after))%list.
  - apply registerAll_duplicate.
  - repeat (rewrite <- ?app_assoc; simpl). reflexivity.
Qed.

Lemma duplicate_registration_fails_witness : Setup Samples.duplicate = None.
Proof.
  apply (duplicate_registration_fails Samples.duplicate
           []
           []
           []
           (config.mkEndpoint "Get" "/items/:id" ["GET"; "POST"] (Fn 1))
           (config.mkEndpoint "Read" "/items/:id" ["PUT"; "GET"] (Fn 2))
           "GET" "GET").
  - reflexivity.
  - simpl; auto.
  - simpl; auto.
  - reflexivity.
  - reflexivity.
Defined.

(** ** The wildcard marker as a pseudo-method *)
Section WildcardFacts.

Lemma registeredMethod_starForLiteral (m : string) :
  registeredMethod (starForLiteral m) = registeredMethod m.
Proof.
  unfold starForLiteral.
  destruct (String.eqb_spec m "__ENCORE_WILDCARD__") as [->|]; reflexivity.
Qed.

Lemma handleMethods_registered (e e' : config.Endpoint) (ms ms' : list string) (r : Router) :
  config.Path e = config.Path e' -> config.Handler e = config.Handler e' ->
  map registeredMethod ms = map registeredMethod ms' ->
  handleMethods ms e r = handleMethods ms' e' r.
Proof.
  intros Hp Hh Hms. rewrite !handleMethods_registerAll. f_equal.
  rewrite Hp, Hh.
  change (fun m : string => (registeredMethod m, config.Path e', config.Handler e'))
    with (fun m : string => (fun x : string => (x, config.Path e', config.Handler e'))
                              (registeredMethod m)).
  rewrite <- !(map_map registeredMethod (fun x => (x, config.Path e', config.Handler e'))).
  rewrite Hms. reflexivity.
Qed.

End WildcardFacts.

(** C9.  The wildcard marker is the pseudo-method string
    ["__ENCORE_WILDCARD__"].  An endpoint whose method set spells out that
    string is registered exactly as the endpoint with ["*"] in its place;
    and for a request whose method is that string, the exact-method lookup
    itself returns the handler of every wildcard-registered route that
    matches the path, so that outside the reserved namespace the run is
    one lookup followed by the call. *)
Theorem wildcard_marker_pseudo_method :
  wildcardMethod = "__ENCORE_WILDCARD__" /\
  registeredMethod "__ENCORE_WILDCARD__" = registeredMethod "*" /\
  (forall (service : string) (e : config.Endpoint) (srv : Server),
     handleRPC service e srv =
     handleRPC service (withMethods e (map starForLiteral (config.Methods e))) srv) /\
  (forall (env : metrics.Env) (cfg : config.ServerConfig) (srv : Server)
          (svc : config.Service) (e : config.Endpoint) (m : string)
          (req : http.Request) (ps : Params),
     Setup cfg = Some srv ->
     In svc (config.Services cfg) -> In e (config.Endpoints svc) ->
     In m (config.Methods e) -> registeredMethod m = wildcardMethod ->
     http.Method req = "__ENCORE_WILDCARD__" ->
     matchPath (config.Path e) (http.URL_Path req) = Some ps ->
     Lookup (router srv) (http.Method req) (http.URL_Path req)
       = (Some (config.Handler e), ps, false) /\
     (reserved (http.URL_Path req) = false ->
      trace (handler env srv req) =
        [RouterLookup "__ENCORE_WILDCARD__" (http.URL_Path req);
         Call (config.Handler e) ps])).
Proof.
  split; [reflexivity|]. split; [reflexivity|]. split.
  - intros service e srv. unfold handleRPC. simpl.
    rewrite (handleMethods_registered e
               (withMethods e (map starForLiteral (config.Methods e)))
               (config.Methods e) (map starForLiteral (config.Methods e)));
      try reflexivity.
    rewrite map_map. apply map_ext. intros m.
    symmetry. apply registeredMethod_starForLiteral.
  - intros env cfg srv svc e m req ps HS Hsvc He Hm Hreg Hmeth Hmatch.
    pose proof (endpoint_registrations cfg svc e m Hsvc He Hm) as Hin.
    rewrite Hreg in Hin.
    pose proof (Lookup_registered _ _ _ _ _ _ _ HS Hin Hmatch) as HL.
    rewrite Hmeth. split; [exact HL|].
    intros Hres.
    rewrite (handler_exact env srv req (config.Handler e) ps false Hres).
    + rewrite Hmeth. reflexivity.
    + rewrite Hmeth. exact HL.
Qed.

Lemma wildcard_marker_pseudo_method_witness :
  Setup Samples.literal = Setup (config.mkServerConfig
      [config.mkService "hooks"
         [config.mkEndpoint "Hook" "/hooks/:name" ["*"] (Fn 9)]]) /\
  Lookup (router (serverOf Samples.orders)) "__ENCORE_WILDCARD__" "/orders/17/raw"
    = (Some (Fn 3), [mkParam "id" "17"], false) /\
  trace (handler Samples.env (serverOf Samples.orders)
           (http.mkRequest "__ENCORE_WILDCARD__" "/orders/17/raw"))
    = [RouterLookup "__ENCORE_WILDCARD__" "/orders/17/raw";
       Call (Fn 3) [mkParam "id" "17"]].
Proof.
  destruct wildcard_marker_pseudo_method as (_ & _ & Hreg & Hlook).
  split.
  - unfold Setup, Samples.literal. simpl.
    rewrite (Hreg "hooks"). reflexivity.
  - destruct (Hlook Samples.env Samples.orders (serverOf Samples.orders)
                (config.mkService "orders"
                   [config.mkEndpoint "Create" "/orders.Create" ["POST"] (Fn 1);
                    config.mkEndpoint "Get" "/orders/:id" ["GET"] (Fn 2);
                    config.mkEndpoint "Any" "/orders/:id/raw" ["GET"; "*"] (Fn 3)])
                (config.mkEndpoint "Any" "/orders/:id/raw" ["GET"; "*"] (Fn 3))
                "*"
                (http.mkRequest "__ENCORE_WILDCARD__" "/orders/17/raw")
                [mkParam "id" "17"]) as [HL HT].
    + vm_compute; reflexivity.
    + simpl; auto.
    + simpl; auto.
    + simpl; auto.
    + reflexivity.
    + reflexivity.
    + vm_compute; reflexivity.
    + split; [exact HL|]. apply HT. vm_compute; reflexivity.
Defined.

(** ** No redirects *)
Section RedirectFacts.

Lemma quiet_noRedirect (t : list Event) : Forall quiet t -> Forall noRedirect t.
Proof.
  intros H. eapply Forall_impl; [exact H|].
  intros e. destruct e; simpl; tauto.
Qed.

Lemma handler_noRedirect (env : metrics.Env) (srv : Server) (req : http.Request) :
  Forall noRedirect (trace (handler env srv req)).
Proof.
  destruct (reserved (http.URL_Path req)) eqn:Hres.
  - apply quiet_noRedirect, internal_quiet, Hres.
  - destruct (Lookup (router srv) (http.Method req) (http.URL_Path req))
      as [[[h|] ps] tsr] eqn:HE.
    + rewrite (handler_exact env srv req h ps tsr Hres HE).
      repeat (apply Forall_cons; split; [exact I|]). apply Forall_nil_2.
    + destruct (Lookup (router srv) wildcardMethod (http.URL_Path req))
        as [[[h|] ps'] tsr'] eqn:HW.
      * rewrite (handler_wildcard env srv req h ps' tsr' Hres); [| |exact HW].
        { repeat (apply Forall_cons; split; [exact I|]). apply Forall_nil_2. }
        { rewrite HE. reflexivity. }
      * rewrite handler_miss; [|exact Hres| |].
        { unfold missActions.
          repeat (apply Forall_cons; split; [simpl; auto|]). apply Forall_nil_2. }
        { rewrite HE. reflexivity. }
        { rewrite HW. reflexivity. }
Qed.

End RedirectFacts.

(** C10, as stated, fails: [/__encore.ScrapeMetrics/] is registered under
    [GET]; the path [/__encore.ScrapeMetrics] differs from that pattern
    only by the trailing slash (the lookup finds no handler and recommends
    the trailing-slash redirect), and the request is answered by the
    metrics scrape with status 200, not by the 404 routing-miss reply.  The
    same happens with the pattern [/:dir/]. *)
Lemma no_automatic_redirect_counterexample :
  (Setup Samples.scrapeDir = Some (serverOf Samples.scrapeDir) /\
   registrations Samples.scrapeDir = [("GET", "/__encore.ScrapeMetrics" +:+ "/", Fn 6)] /\
   Lookup (router (serverOf Samples.scrapeDir)) "GET" "/__encore.ScrapeMetrics"
     = (None, [], true) /\
   Lookup (router (serverOf Samples.scrapeDir)) wildcardMethod "/__encore.ScrapeMetrics"
     = (None, [], false) /\
   status (response (trace (handler Samples.env (serverOf Samples.scrapeDir)
                              (http.mkRequest "GET" "/__encore.ScrapeMetrics"))))
     = Some 200 /\
   increments (trace (handler Samples.env (serverOf Samples.scrapeDir)
                        (http.mkRequest "GET" "/__encore.ScrapeMetrics"))) = []) /\
  (Setup Samples.dirs = Some (serverOf Samples.dirs) /\
   registrations Samples.dirs = [("GET", "/:dir/", Fn 4)] /\
   matchPath "/:dir/" ("/__encore.ScrapeMetrics" +:+ "/")
     = Some [mkParam "dir" "__encore.ScrapeMetrics"] /\
   Lookup (router (serverOf Samples.dirs)) "GET" "/__encore.ScrapeMetrics" = (None, [], true) /\
   Lookup (router (serverOf Samples.dirs)) wildcardMethod "/__encore.ScrapeMetrics"
     = (None, [], false) /\
   status (response (trace (handler Samples.env (serverOf Samples.dirs)
                              (http.mkRequest "GET" "/__encore.ScrapeMetrics"))))
     = Some 200 /\
   increments (trace (handler Samples.env (serverOf Samples.dirs)
                        (http.mkRequest "GET" "/__encore.ScrapeMetrics"))) = []).
Proof.
  split; repeat (split; [vm_compute; reflexivity|]); vm_compute; reflexivity.
Qed.

(** C10, amended.  The router [Setup] builds has [HandleOPTIONS],
    [RedirectFixedPath] and [RedirectTrailingSlash] disabled; no run of the
    dispatcher writes a status other than 404 or 500 or sets a redirect or
    [Allow] header; and a request outside the reserved namespace for which
    neither lookup returns a handler gets the 404 routing-miss reply,
    whatever trailing-slash recommendation the lookups return. *)
Theorem no_automatic_redirect (env : metrics.Env) (cfg : config.ServerConfig)
    (srv : Server) (req : http.Request) :
  Setup cfg = Some srv ->
  (HandleOPTIONS (router srv) = false /\
   RedirectFixedPath (router srv) = false /\
   RedirectTrailingSlash (router srv) = false) /\
  Forall noRedirect (trace (handler env srv req)) /\
  (strings.HasPrefix (strings.TrimPrefix (http.URL_Path req) "/") "__encore." = false ->
   forall (p1 p2 : Params) (tsr1 tsr2 : bool),
     Lookup (router srv) (http.Method req) (http.URL_Path req) = (None, p1, tsr1) ->
     Lookup (router srv) wildcardMethod (http.URL_Path req) = (None, p2, tsr2) ->
     trace (handler env srv req) =
       (RouterLookup (http.Method req) (http.URL_Path req)
        :: RouterLookup wildcardMethod (http.URL_Path req)
        :: missActions (identifier req)) /\
     status (response (trace (handler env srv req))) = Some 404).
Proof.
  intros HS. split; [exact (Setup_flags cfg srv HS)|].
  split; [apply handler_noRedirect|].
  intros Hres p1 p2 tsr1 tsr2 HE HW.
  assert (T : trace (handler env srv req) =
              (RouterLookup (http.Method req) (http.URL_Path req)
               :: RouterLookup wildcardMethod (http.URL_Path req)
               :: missActions (identifier req))).
  { apply handler_miss; [exact Hres | rewrite HE; reflexivity | rewrite HW; reflexivity]. }
  split; [exact T|]. rewrite T, response_miss. reflexivity.
Qed.

(** [/:dir/] is registered; [GET /docs] is not redirected to [/docs/]. *)
Lemma no_automatic_redirect_witness :
  Lookup (router (serverOf Samples.dirs)) "GET" "/docs" = (None, [], true) /\
  status (response (trace (handler Samples.env (serverOf Samples.dirs)
                             (http.mkRequest "GET" "/docs")))) = Some 404.
Proof.
  split; [vm_compute; reflexivity|].
  destruct (no_automatic_redirect Samples.env Samples.dirs (serverOf Samples.dirs)
              (http.mkRequest "GET" "/docs")) as (_ & _ & H);
    [vm_compute; reflexivity|].
  destruct (H eq_refl [] [] true false) as [_ Hst];
    [vm_compute; reflexivity | vm_compute; reflexivity | exact Hst].
Defined.

(** ** The retry loop of [setupLogging] *)
Section LoggingFacts.

Variable env : os.Env.

Lemma wrapInt_small (z : Z) : 0 <= z <= 121 -> os.wrapInt z = z.
Proof.
  intros H. unfold os.wrapInt.
  change (2 ^ 63) with 9223372036854775808.
  change (2 ^ 64) with 18446744073709551616.
  rewrite Z.mod_small by lia. lia.
Qed.

Lemma dialLoop_step_fail (fuel : nat) (i : Z) (n : nat) (err : string) :
  os.DialUnix env n = inr err -> i <> 120 -> 0 <= i <= 120 ->
  dialLoop env (S fuel) i n =
  (fst (dialLoop env fuel (i + 1) (S n)),
   os.Dial "unix" "/var/lib/encore/applog.sock"
   :: os.LogLine ("could not dial logging socket: " +:+ err)
   :: os.Sleep 1 :: snd (dialLoop env fuel (i + 1) (S n))).
Proof.
  intros Hd Hi Hr. simpl. rewrite Hd.
  destruct (Z.eqb_spec i 120) as [|_]; [contradiction|].
  rewrite wrapInt_small by lia.
  destruct (dialLoop env fuel (i + 1) (S n)). reflexivity.
Qed.

(** With [d] iterations left before the counter passes 120, [d]
    iterations of fuel are enough, and bound the dials and the sleeps. *)
Lemma dialLoop_bounded (d : nat) :
  forall (fuel n : nat),
    (1 <= d <= 121)%nat -> (d <= fuel)%nat ->
    dialLoop env fuel (121 - Z.of_nat d) n = dialLoop env d (121 - Z.of_nat d) n /\
    fst (dialLoop env d (121 - Z.of_nat d) n) <> os.OutOfFuel /\
    (length (dials (snd (dialLoop env d (121 - Z.of_nat d) n))) <= d)%nat /\
    (S (length (sleeps (snd (dialLoop env d (121 - Z.of_nat d) n)))) <= d)%nat /\
    Forall (eq 1) (sleeps (snd (dialLoop env d (121 - Z.of_nat d) n))).
Proof.
  induction d as [|d IH]; intros fuel n Hd Hfuel; [lia|].
  destruct fuel as [|fuel]; [lia|].
  destruct (os.DialUnix env n) as [sock|err] eqn:E.
  { simpl. rewrite E. simpl. repeat split; try lia; try discriminate. constructor. }
  destruct (decide (d = 0)%nat) as [->|Hd0].
  { simpl. rewrite E. simpl. repeat split; try lia; try discriminate. constructor. }
  assert (Hi : 121 - Z.of_nat (S d) <> 120) by lia.
  assert (Hr : 0 <= 121 - Z.of_nat (S d) <= 120) by lia.
  rewrite !(dialLoop_step_fail _ _ _ _ E Hi Hr).
  replace (121 - Z.of_nat (S d) + 1) with (121 - Z.of_nat d) by lia.
  destruct (IH fuel (S n)) as (H1 & H2 & H3 & H4 & H5); [lia | lia |].
  rewrite H1. simpl.
  split; [reflexivity|]. split; [exact H2|].
  split; [simpl in *; lia|]. split; [simpl in *; lia|].
  constructor; [reflexivity | exact H5].
Qed.

(** The first [k] dials fail and the next one connects. *)
Lemma dialLoop_connects (k : nat) :
  forall (fuel n : nat) (i : Z) (sock : Z),
    0 <= i -> i + Z.of_nat k <= 120 -> (k < fuel)%nat ->
    (forall j, (j < k)%nat -> dialFails env (n + j)) ->
    os.DialUnix env (n + k) = inl sock ->
    fst (dialLoop env fuel i n) = os.Returns sock /\
    length (dials (snd (dialLoop env fuel i n))) = S k /\
    sleeps (snd (dialLoop env fuel i n)) = repeat 1 k /\
    logLines (snd (dialLoop env fuel i n)) =
      map (fun j => "could not dial logging socket: " +:+ dialError env j) (seq n k) /\
    redirections (snd (dialLoop env fuel i n)) = [].
Proof.
  induction k as [|k IH]; intros fuel n i sock Hi0 Hi Hfuel Hfail Hok.
  - destruct fuel as [|fuel]; [lia|].
    rewrite Nat.add_0_r in Hok. simpl. rewrite Hok. simpl. auto.
  - destruct fuel as [|fuel]; [lia|].
    destruct (Hfail 0%nat) as [err E]; [lia|]. rewrite Nat.add_0_r in E.
    rewrite (dialLoop_step_fail _ _ _ _ E) by lia.
    destruct (IH fuel (S n) (i + 1) sock) as (H1 & H2 & H3 & H4 & H5); try lia.
    { intros j Hj. replace (S n + j)%nat with (n + S j)%nat by lia. apply Hfail. lia. }
    { replace (S n + k)%nat with (n + S k)%nat by lia. exact Hok. }
    simpl. split; [exact H1|]. split; [rewrite H2; reflexivity|].
    split; [rewrite H3; reflexivity|]. split; [|exact H5].
    rewrite H4. unfold dialError at 2. rewrite E. reflexivity.
Qed.

(** Every dial up to the one made at counter 120 fails. *)
Lemma dialLoop_gives_up (d : nat) :
  forall (fuel n : nat),
    (1 <= d <= 121)%nat -> (d <= fuel)%nat ->
    (forall j, (j < d)%nat -> dialFails env (n + j)) ->
    fst (dialLoop env fuel (121 - Z.of_nat d) n) = os.Exits /\
    length (dials (snd (dialLoop env fuel (121 - Z.of_nat d) n))) = d /\
    sleeps (snd (dialLoop env fuel (121 - Z.of_nat d) n)) = repeat 1 (d - 1) /\
    logLines (snd (dialLoop env fuel (121 - Z.of_nat d) n)) =
      (map (fun j => "could not dial logging socket: " +:+ dialError env j)
           (seq n (d - 1)) ++
       ["could not setup logging: " +:+ dialError env (n + (d - 1))])%list /\
    redirections (snd (dialLoop env fuel (121 - Z.of_nat d) n)) = [].
Proof.
  induction d as [|d IH]; intros fuel n Hd Hfuel Hfail; [lia|].
  destruct fuel as [|fuel]; [lia|].
  destruct (Hfail 0%nat) as [err E]; [lia|]. rewrite Nat.add_0_r in E.
  destruct (decide (d = 0)%nat) as [->|Hd0].
  { simpl. rewrite E. simpl. rewrite Nat.add_0_r. unfold dialError. rewrite E. auto. }
  assert (Hi : 121 - Z.of_nat (S d) <> 120) by lia.
  assert (Hr : 0 <= 121 - Z.of_nat (S d) <= 120) by lia.
  rewrite (dialLoop_step_fail _ _ _ _ E Hi Hr).
  replace (121 - Z.of_nat (S d) + 1) with (121 - Z.of_nat d) by lia.
  destruct (IH fuel (S n)) as (H1 & H2 & H3 & H4 & H5); try lia.
  { intros j Hj. replace (S n + j)%nat with (n + S j)%nat by lia. apply Hfail. lia. }
  simpl. split; [exact H1|]. split; [rewrite H2; reflexivity|].
  split; [rewrite H3; destruct d; [lia | simpl; rewrite Nat.sub_0_r; reflexivity]|].
  split; [|exact H5].
  rewrite H4. destruct d as [|d]; [lia|]. simpl. rewrite Nat.sub_0_r.
  unfold dialError at 3. rewrite E.
  replace (S (n + d)) with (n + S d)%nat by lia. reflexivity.
Qed.

Lemma redirect_never_out_of_fuel (sock : Z) : fst (redirect env sock) <> os.OutOfFuel.
Proof.
  unfold redirect. destruct (os.File env sock) as [fd|err]; [|discriminate].
  destruct (os.Dup2 env fd 1); [discriminate|].
  destruct (os.Dup2 env fd 2); discriminate.
Qed.

Lemma redirect_no_dial (sock : Z) :
  dials (snd (redirect env sock)) = [] /\ sleeps (snd (redirect env sock)) = [].
Proof.
  unfold redirect. destruct (os.File env sock) as [fd|err]; [|auto].
  destruct (os.Dup2 env fd 1); [auto|].
  destruct (os.Dup2 env fd 2); auto.
Qed.

Lemma dials_app (t u : list os.Action) : dials (t ++ u)%list = (dials t ++ dials u)%list.
Proof. apply omap_app. Qed.

Lemma sleeps_app (t u : list os.Action) : sleeps (t ++ u)%list = (sleeps t ++ sleeps u)%list.
Proof. apply omap_app. Qed.

Lemma logLines_app (t u : list os.Action) :
  logLines (t ++ u)%list = (logLines t ++ logLines u)%list.
Proof. apply omap_app. Qed.

Lemma redirections_app (t u : list os.Action) :
  redirections (t ++ u)%list = (redirections t ++ redirections u)%list.
Proof. apply omap_app. Qed.

End LoggingFacts.

Section LoggingShape.

Variable env : os.Env.

Lemma dialLoop_shape (fuel : nat) :
  forall (i : Z) (n : nat),
    redirections (snd (dialLoop env fuel i n)) = [] /\
    (forall sock, fst (dialLoop env fuel i n) = os.Returns sock ->
                  ~ In (os.Exit 1) (snd (dialLoop env fuel i n))) /\
    (fst (dialLoop env fuel i n) = os.Exits ->
     last (snd (dialLoop env fuel i n)) = Some (os.Exit 1)).
Proof.
  induction fuel as [|fuel IH]; intros i n; simpl.
  - split; [reflexivity|]. split; [intros sock H|intros H]; discriminate H.
  - destruct (os.DialUnix env n) as [sock|err].
    + simpl. split; [reflexivity|]. split; [|discriminate].
      intros _ _ [H|[]]. discriminate H.
    + destruct (Z.eqb i 120).
      * simpl. split; [reflexivity|]. split; [discriminate | reflexivity].
      * destruct (IH (os.wrapInt (i + 1)) (S n)) as (H1 & H2 & H3).
        destruct (dialLoop env fuel (os.wrapInt (i + 1)) (S n)) as [r t]. simpl in *.
        split; [exact H1|]. split.
        { intros sock Hr [H|[H|[H|H]]]; try discriminate H. exact (H2 sock Hr H). }
        { intros Hr. specialize (H3 Hr). destruct t; [discriminate H3 | exact H3]. }
Qed.

End LoggingShape.

(** X1.  The retry loop of [setupLogging] always ends: 121 iterations are
    enough whatever the socket does, more change nothing; a run dials at
    most 121 times and sleeps at most 120 times, one second each. *)
Theorem setupLogging_bounded (env : os.Env) (fuel : nat) :
  (121 <= fuel)%nat ->
  setupLogging env fuel = setupLogging env 121 /\
  fst (setupLogging env 121) <> os.OutOfFuel /\
  (length (dials (snd (setupLogging env 121))) <= 121)%nat /\
  (length (sleeps (snd (setupLogging env 121))) <= 120)%nat /\
  Forall (eq 1) (sleeps (snd (setupLogging env 121))).
Proof.
  intros Hfuel.
  destruct (dialLoop_bounded env 121 fuel 0) as (H1 & H2 & H3 & H4 & H5); [lia | lia |].
  change (121 - Z.of_nat 121) with 0 in *.
  unfold setupLogging. rewrite H1.
  destruct (dialLoop env 121 0 0) as [[sock| |] t]; simpl in *.
  - pose proof (redirect_never_out_of_fuel env sock) as R.
    destruct (redirect_no_dial env sock) as [D S].
    destruct (redirect env sock) as [r t']. simpl in *.
    split; [reflexivity|]. split; [exact R|].
    rewrite dials_app, sleeps_app, D, S, !app_nil_r.
    split; [lia|]. split; [lia | exact H5].
  - split; [reflexivity|]. split; [discriminate|]. split; [lia|]. split; [lia | exact H5].
  - contradiction.
Qed.

Lemma setupLogging_bounded_witness :
  setupLogging Samples.osLate 500 = setupLogging Samples.osLate 121 /\
  fst (setupLogging Samples.osLate 121) = os.Returns tt.
Proof.
  destruct (setupLogging_bounded Samples.osLate 500) as (H & _); [lia|].
  split; [exact H | vm_compute; reflexivity].
Defined.

(** X2.  When the first [k] dials fail and dial [k] connects, [k] at most
    120, [setupLogging] dials [k + 1] times, logs one "could not dial"
    line and sleeps one second per failed dial, and goes on with the
    redirection of the connected socket. *)
Theorem setupLogging_connects (env : os.Env) (k : nat) (sock : Z) :
  (k <= 120)%nat ->
  (forall j, (j < k)%nat -> dialFails env j) ->
  os.DialUnix env k = inl sock ->
  fst (setupLogging env 121) = fst (redirect env sock) /\
  length (dials (snd (setupLogging env 121))) = S k /\
  sleeps (snd (setupLogging env 121)) = repeat 1 k /\
  logLines (snd (setupLogging env 121)) =
    (map (fun j => "could not dial logging socket: " +:+ dialError env j) (seq 0 k)
     ++ logLines (snd (redirect env sock)))%list /\
  redirections (snd (setupLogging env 121)) = redirections (snd (redirect env sock)).
Proof.
  intros Hk Hfail Hok.
  destruct (dialLoop_connects env k 121 0 0 sock) as (H1 & H2 & H3 & H4 & H5);
    try lia; try assumption.
  unfold setupLogging.
  destruct (dialLoop env 121 0 0) as [r t]. simpl in *. subst r.
  destruct (redirect_no_dial env sock) as [D S].
  destruct (redirect env sock) as [r t']. simpl in *.
  rewrite dials_app, sleeps_app, logLines_app, redirections_app, D, S, !app_nil_r.
  rewrite H2, H3, H4, H5. auto.
Qed.

Lemma setupLogging_connects_witness :
  fst (setupLogging Samples.osLate 121) = os.Returns tt /\
  length (dials (snd (setupLogging Samples.osLate 121))) = 3%nat /\
  sleeps (snd (setupLogging Samples.osLate 121)) = [1; 1] /\
  redirections (snd (setupLogging Samples.osLate 121)) = [(17, 1); (17, 2)].
Proof.
  destruct (setupLogging_connects Samples.osLate 2 7) as (H1 & H2 & H3 & _ & H5).
  - lia.
  - intros j Hj. exists "connection refused".
    destruct j as [|[|j]]; [reflexivity | reflexivity | lia].
  - reflexivity.
  - rewrite H1, H2, H3, H5. repeat split; vm_compute; reflexivity.
Defined.

(** X3.  When every dial up to the 121st fails, [setupLogging] exits the
    process: it has dialled exactly 121 times and slept exactly 120 times,
    the last failure is reported by "could not setup logging" without a
    further sleep, and no descriptor is redirected. *)
Theorem setupLogging_gives_up (env : os.Env) :
  (forall j, (j <= 120)%nat -> dialFails env j) ->
  fst (setupLogging env 121) = os.Exits /\
  length (dials (snd (setupLogging env 121))) = 121%nat /\
  sleeps (snd (setupLogging env 121)) = repeat 1 120 /\
  logLines (snd (setupLogging env 121)) =
    (map (fun j => "could not dial logging socket: " +:+ dialError env j) (seq 0 120)
     ++ ["could not setup logging: " +:+ dialError env 120])%list /\
  redirections (snd (setupLogging env 121)) = [] /\
  last (snd (setupLogging env 121)) = Some (os.Exit 1).
Proof.
  intros Hfail.
  destruct (dialLoop_gives_up env 121 121 0) as (H1 & H2 & H3 & H4 & H5); try lia.
  { intros j Hj. apply Hfail. lia. }
  change (121 - Z.of_nat 121) with 0 in *.
  destruct (dialLoop_shape env 121 0 0) as (_ & _ & HL).
  unfold setupLogging.
  destruct (dialLoop env 121 0 0) as [r t]. simpl in *. subst r. simpl.
  repeat split; auto.
Qed.

Lemma setupLogging_gives_up_witness :
  fst (setupLogging Samples.osDown 121) = os.Exits /\
  length (dials (snd (setupLogging Samples.osDown 121))) = 121%nat /\
  length (sleeps (snd (setupLogging Samples.osDown 121))) = 120%nat.
Proof.
  destruct (setupLogging_gives_up Samples.osDown) as (H1 & H2 & H3 & _).
  - intros j _. exists "connection refused". reflexivity.
  - rewrite H1, H2, H3. repeat split.
Defined.



(** ** The metrics scrape *)
Section ScrapeFacts.

Variable env : metrics.Env.








End ScrapeFacts.

(** X5.  When [metrics.Gather] fails, the scrape answers with status 500
    and the plain-text message "could not gather metrics: " followed by
    the error; no metric family is encoded. *)
Theorem scrape_gather_failure (env : metrics.Env) (err : string) :
  metrics.Gather env = inr err ->
  response (trace (scrapeMetrics env)) =
  {| status := Some 500;
     header := {[ "Content-Type" := "text/plain; charset=utf-8";
                  "X-Content-Type-Options" := "nosniff" ]};
     body := "could not gather metrics: " +:+ err +:+ http.LF |}.
Proof.
  intros H. unfold scrapeMetrics. rewrite H. reflexivity.
Qed.

Lemma scrape_gather_failure_witness :
  body (response (trace (scrapeMetrics (metrics.mkEnv (inr "registry closed") (fun mf => inl mf)))))
  = "could not gather metrics: registry closed" +:+ http.LF.
Proof.
  rewrite (scrape_gather_failure (metrics.mkEnv (inr "registry closed") (fun mf => inl mf))
             "registry closed"); reflexivity.
Defined.





(** ** The three dispositions of a request *)
Section DispositionFacts.

Lemma HasPrefix_append (s t : string) : strings.HasPrefix (s +:+ t) s = true.
Proof.
  induction s as [|a s IH]; [reflexivity|].
  rewrite append_cons; simpl. rewrite Ascii.eqb_refl. exact IH.
Qed.

Lemma sliceFrom_append (s t : string) :
  strings.sliceFrom (String.length s) (s +:+ t) = t.
Proof.
  induction s as [|a s IH]; [reflexivity|].
  rewrite append_cons; simpl. exact IH.
Qed.

Lemma registrations_inv (cfg : config.ServerConfig) (m pattern : string) (h : HandleFn) :
  In (m, pattern, h) (registrations cfg) ->
  exists svc e m0,
    In svc (config.Services cfg) /\ In e (config.Endpoints svc) /\
    In m0 (config.Methods e) /\ registeredMethod m0 = m /\
    config.Path e = pattern /\ config.Handler e = h.
Proof.
  unfold registrations, endpoints. intros H.
  apply in_flat_map in H. destruct H as (e & He & H).
  apply in_flat_map in He. destruct He as (svc & Hsvc & He).
  unfold endpointRegistrations in H. apply in_map_iff in H.
  destruct H as (m0 & [= <- <- <-] & Hm0).
  exists svc, e, m0. repeat split; assumption || reflexivity.
Qed.

End DispositionFacts.

(** X8.  Every request gets exactly one of three dispositions.  In the
    reserved namespace the dispatcher only writes to the response.
    Otherwise either it calls one handler, once, as its last action, and
    writes nothing to the response itself and counts nothing; or it calls
    no handler, counts one unknown endpoint and answers 404. *)
Theorem handler_dispositions (env : metrics.Env) (srv : Server) (req : http.Request) :
  (reserved (http.URL_Path req) = true /\
   Forall quiet (trace (handler env srv req))) \/
  (reserved (http.URL_Path req) = false /\
   exists h ps,
     calls (trace (handler env srv req)) = [(h, ps)] /\
     last (trace (handler env srv req)) = Some (Call h ps) /\
     increments (trace (handler env srv req)) = [] /\
     response (trace (handler env srv req)) = emptyResponse) \/
  (reserved (http.URL_Path req) = false /\
   calls (trace (handler env srv req)) = [] /\
   increments (trace (handler env srv req)) = [serviceApi (identifier req)] /\
   status (response (trace (handler env srv req))) = Some 404).
Proof.
  destruct (reserved (http.URL_Path req)) eqn:Hres.
  - left. split; [reflexivity|]. apply internal_quiet, Hres.
  - right.
    destruct (Lookup (router srv) (http.Method req) (http.URL_Path req))
      as [[[h|] ps] tsr] eqn:HE.
    + left. split; [reflexivity|]. exists h, ps.
      rewrite (handler_exact env srv req h ps tsr Hres HE). auto.
    + destruct (Lookup (router srv) wildcardMethod (http.URL_Path req))
        as [[[h|] ps'] tsr'] eqn:HW.
      * left. split; [reflexivity|]. exists h, ps'.
        rewrite (handler_wildcard env srv req h ps' tsr' Hres); [auto| |exact HW].
        rewrite HE. reflexivity.
      * right. split; [reflexivity|].
        rewrite handler_miss; [|exact Hres| |].
        { unfold missActions, calls, increments. simpl.
          destruct (serviceApi (identifier req)). auto. }
        { rewrite HE. reflexivity. }
        { rewrite HW. reflexivity. }
Qed.

(** X9.  After [Setup], the dispatcher calls only handlers of configured
    endpoints: a called handler belongs to an endpoint that lists the
    request's method or a wildcard, whose pattern matches the request path
    with the parameters passed, and the path is outside the reserved
    namespace. *)
Theorem dispatch_sound (env : metrics.Env) (cfg : config.ServerConfig) (srv : Server)
    (req : http.Request) (h : HandleFn) (ps : Params) :
  Setup cfg = Some srv ->
  In (h, ps) (calls (trace (handler env srv req))) ->
  reserved (http.URL_Path req) = false /\
  exists svc e m,
    In svc (config.Services cfg) /\ In e (config.Endpoints svc) /\
    In m (config.Methods e) /\
    (registeredMethod m = http.Method req \/ registeredMethod m = wildcardMethod) /\
    config.Handler e = h /\
    matchPath (config.Path e) (http.URL_Path req) = Some ps.
Proof.
  intros HS Hin.
  destruct (reserved (http.URL_Path req)) eqn:Hres.
  { rewrite (quiet_calls _ (internal_quiet env srv req Hres)) in Hin. destruct Hin. }
  split; [reflexivity|].
  assert (G : forall m tsr,
             Lookup (router srv) m (http.URL_Path req) = (Some h, ps, tsr) ->
             m = http.Method req \/ m = wildcardMethod ->
             exists svc e m0,
               In svc (config.Services cfg) /\ In e (config.Endpoints svc) /\
               In m0 (config.Methods e) /\
               (registeredMethod m0 = http.Method req \/ registeredMethod m0 = wildcardMethod) /\
               config.Handler e = h /\
               matchPath (config.Path e) (http.URL_Path req) = Some ps).
  { intros m tsr HL Hm.
    destruct (Lookup_found _ _ _ _ _ _ _ HS HL) as (pattern & Hreg & Hmatch).
    destruct (registrations_inv _ _ _ _ Hreg) as (svc & e & m0 & H1 & H2 & H3 & H4 & H5 & H6).
    exists svc, e, m0. subst. repeat split; auto. }
  destruct (Lookup (router srv) (http.Method req) (http.URL_Path req))
    as [[[h0|] ps0] tsr] eqn:HE.
  - rewrite (handler_exact env srv req h0 ps0 tsr Hres HE) in Hin.
    destruct Hin as [[= <- <-]|[]]. eapply G; eauto.
  - destruct (Lookup (router srv) wildcardMethod (http.URL_Path req))
      as [[[h1|] ps1] tsr1] eqn:HW.
    + rewrite (handler_wildcard env srv req h1 ps1 tsr1 Hres) in Hin; [| |exact HW].
      * destruct Hin as [[= <- <-]|[]]. eapply G; eauto.
      * rewrite HE. reflexivity.
    + rewrite handler_miss in Hin; [|exact Hres| |].
      * destruct Hin.
      * rewrite HE. reflexivity.
      * rewrite HW. reflexivity.
Qed.

Lemma dispatch_sound_witness :
  exists svc e m,
    In svc (config.Services Samples.orders) /\ In e (config.Endpoints svc) /\
    In m (config.Methods e) /\
    (registeredMethod m = "PATCH" \/ registeredMethod m = wildcardMethod) /\
    config.Handler e = Fn 3 /\
    matchPath (config.Path e) "/orders/17/raw" = Some [mkParam "id" "17"].
Proof.
  destruct (dispatch_sound Samples.env Samples.orders (serverOf Samples.orders)
              (http.mkRequest "PATCH" "/orders/17/raw") (Fn 3) [mkParam "id" "17"])
    as [_ H].
  - vm_compute; reflexivity.
  - vm_compute. left. reflexivity.
  - exact H.
Defined.

(** X10.  The reply to a request in the reserved namespace depends on the
    path and on the metrics collaborator only: not on the request method,
    and not on the server's routes. *)
Theorem internal_ignores_method_and_routes (env : metrics.Env) (srv1 srv2 : Server)
    (req1 req2 : http.Request) :
  http.URL_Path req1 = http.URL_Path req2 ->
  reserved (http.URL_Path req1) = true ->
  handler env srv1 req1 = handler env srv2 req2.
Proof.
  intros Hp Hres.
  rewrite (handler_internal env srv1 req1 Hres).
  rewrite Hp in Hres. rewrite (handler_internal env srv2 req2 Hres).
  unfold internalName, identifier. rewrite Hp. reflexivity.
Qed.

Lemma internal_ignores_method_and_routes_witness :
  handler Samples.env (serverOf Samples.shadow) (http.mkRequest "GET" "/__encore.ScrapeMetrics")
  = handler Samples.env (serverOf Samples.empty) (http.mkRequest "DELETE" "/__encore.ScrapeMetrics").
Proof.
  apply internal_ignores_method_and_routes; reflexivity.
Defined.

(** X11.  The reserved namespace is exactly the paths ["/__encore."]
    followed by a name and the same without the leading slash: one leading
    slash is stripped and no more, so a path that begins with two slashes
    is never reserved. *)
Theorem reserved_paths (path : string) :
  (reserved path = true <->
   exists name, path = "/__encore." +:+ name \/ path = "__encore." +:+ name) /\
  (forall rest, reserved ("//" +:+ rest) = false).
Proof.
  split; [split|].
  - unfold reserved, strings.TrimPrefix. intros H.
    destruct (strings.HasPrefix path "/") eqn:Hs.
    + apply HasPrefix_split in H. apply HasPrefix_split in Hs.
      exists (strings.sliceFrom (String.length "__encore.")
                (strings.sliceFrom (String.length "/") path)).
      left. rewrite Hs at 1. rewrite H at 1. reflexivity.
    + apply HasPrefix_split in H.
      exists (strings.sliceFrom (String.length "__encore.") path).
      right. exact H.
  - intros [name [->| ->]].
    + unfold reserved, strings.TrimPrefix.
      change ("/__encore." +:+ name) with ("/" +:+ "__encore." +:+ name).
      rewrite HasPrefix_append, sliceFrom_append. apply HasPrefix_append.
    + unfold reserved, strings.TrimPrefix.
      change (strings.HasPrefix ("__encore." +:+ name) "/") with false.
      cbv iota. apply HasPrefix_append.
  - intros rest. reflexivity.
Qed.

(** X12.  The labels of an unknown-endpoint increment put the identifier
    back together: either the identifier has no dot and the labels are
    [("unknown", "Unknown")], or it is the service label, a dot and the api
    label, and the service label holds no dot. *)
Theorem miss_labels_reassemble (env : metrics.Env) (srv : Server) (req : http.Request)
    (svc api : string) :
  In (svc, api) (increments (trace (handler env srv req))) ->
  (strings.IndexByte (identifier req) "."%char = -1 /\
   svc = "unknown" /\ api = "Unknown") \/
  (identifier req = svc +:+ "." +:+ api /\ strings.IndexByte svc "."%char = -1).
Proof.
  intros Hin.
  assert (E : (svc, api) = serviceApi (identifier req)).
  { destruct (reserved (http.URL_Path req)) eqn:Hres.
    { rewrite (quiet_increments _ (internal_quiet env srv req Hres)) in Hin. destruct Hin. }
    destruct (Lookup (router srv) (http.Method req) (http.URL_Path req))
      as [[[h0|] ps0] tsr] eqn:HE.
    - rewrite (handler_exact env srv req h0 ps0 tsr Hres HE) in Hin. destruct Hin.
    - destruct (Lookup (router srv) wildcardMethod (http.URL_Path req))
        as [[[h1|] ps1] tsr1] eqn:HW.
      + rewrite (handler_wildcard env srv req h1 ps1 tsr1 Hres) in Hin; [| |exact HW].
        * destruct Hin.
        * rewrite HE. reflexivity.
      + rewrite handler_miss in Hin; [|exact Hres| |].
        * unfold missActions, increments in Hin. simpl in Hin.
          destruct Hin as [Hin|[]]. rewrite <- Hin.
          destruct (serviceApi (identifier req)); reflexivity.
        * rewrite HE. reflexivity.
        * rewrite HW. reflexivity. }
  unfold serviceApi in E.
  destruct (cutFirstDot (identifier req)) as [[l r]|] eqn:Ec; simpl in E.
  - injection E as -> ->. right. apply cutFirstDot_Some. exact Ec.
  - injection E as -> ->. left. split; [|auto]. apply cutFirstDot_None. exact Ec.
Qed.

Lemma miss_labels_reassemble_witness :
  identifier (http.mkRequest "GET" "/billing.v2.Charge") = "billing" +:+ "." +:+ "v2.Charge" /\
  strings.IndexByte "billing" "."%char = -1.
Proof.
  destruct (miss_labels_reassemble Samples.env (serverOf Samples.orders)
              (http.mkRequest "GET" "/billing.v2.Charge") "billing" "v2.Charge")
    as [(H & _)|H].
  - vm_compute. left. reflexivity.
  - vm_compute in H. discriminate H.
  - exact H.
Defined.

(** ** What [Setup] logs *)
Section LoggerFacts.

Lemma setupEndpoints_logger (service : string) (eps : list config.Endpoint) :
  forall srv srv',
    setupEndpoints service eps srv = Some srv' ->
    logger srv' = (logger srv ++ map (registeredEntry service) eps)%list.
Proof.
  induction eps as [|e eps IH]; intros srv srv'; simpl.
  - intros [= <-]. rewrite app_nil_r. reflexivity.
  - unfold handleRPC.
    destruct (handleMethods (config.Methods e) e (router srv)) as [r|]; [|discriminate].
    intros H. rewrite (IH _ _ H). simpl. rewrite <- app_assoc. reflexivity.
Qed.

Lemma setupServices_logger (svcs : list config.Service) :
  forall srv srv',
    setupServices svcs srv = Some srv' ->
    logger srv' =
    (logger srv ++
     flat_map (fun svc => map (registeredEntry (config.ServiceName svc)) (config.Endpoints svc))
              svcs)%list.
Proof.
  induction svcs as [|svc svcs IH]; intros srv srv'; simpl.
  - intros [= <-]. rewrite app_nil_r. reflexivity.
  - destruct (setupEndpoints _ _ srv) as [srv1|] eqn:E; [|discriminate].
    intros H. rewrite (IH _ _ H), (setupEndpoints_logger _ _ _ _ E).
    rewrite <- app_assoc. reflexivity.
Qed.

Lemma entries_length (svcs : list config.Service) :
  length (flat_map (fun svc => map (registeredEntry (config.ServiceName svc))
                                   (config.Endpoints svc)) svcs) =
  length (flat_map config.Endpoints svcs).
Proof.
  induction svcs as [|svc svcs IH]; [reflexivity|].
  simpl. rewrite !length_app, length_map, IH. reflexivity.
Qed.

End LoggerFacts.

(** X13.  A [Setup] that succeeds has logged exactly one "registered
    endpoint" entry per configured endpoint, in configuration order, with
    the service name, the endpoint name and the path; an endpoint with an
    empty method set is logged like the others. *)
Theorem Setup_logs_every_endpoint (cfg : config.ServerConfig) (srv : Server) :
  Setup cfg = Some srv ->
  logger srv =
  flat_map (fun svc => map (registeredEntry (config.ServiceName svc)) (config.Endpoints svc))
           (config.Services cfg) /\
  length (logger srv) = length (endpoints cfg).
Proof.
  intros HS. unfold Setup in HS.
  pose proof (setupServices_logger _ _ _ HS) as H. simpl in H.
  split; [exact H|].
  rewrite H. unfold endpoints. apply entries_length.
Qed.

Lemma Setup_logs_every_endpoint_witness :
  logger (serverOf Samples.orders) =
  [mkLogEntry "orders" "Create" "/orders.Create" "registered endpoint";
   mkLogEntry "orders" "Get" "/orders/:id" "registered endpoint";
   mkLogEntry "orders" "Any" "/orders/:id/raw" "registered endpoint"].
Proof.
  destruct (Setup_logs_every_endpoint Samples.orders (serverOf Samples.orders)) as [H _].
  - vm_compute; reflexivity.
  - rewrite H. reflexivity.
Defined.

(** X14.  An endpoint whose method set registers one method twice makes
    [Setup] panic: the same method listed twice, or ["*"] together with
    the spelled-out pseudo-method. *)
Theorem repeated_method_fails (cfg : config.ServerConfig) (svc : config.Service)
    (e : config.Endpoint) (before between after : list string) (m1 m2 : string) :
  In svc (config.Services cfg) -> In e (config.Endpoints svc) ->
  config.Methods e = (before ++ m1 :: between ++ m2 :: after)%list ->
  registeredMethod m1 = registeredMethod m2 ->
  Setup cfg = None.
Proof.
  intros Hsvc He Hms Hm.
  apply Setup_None. unfold registrations.
  assert (Hin : In e (endpoints cfg)).
  { unfold endpoints. apply in_flat_map. exists svc. auto. }
  apply in_split in Hin. destruct Hin as (l1 & l2 & ->).
  rewrite flat_map_app. simpl.
  unfold endpointRegistrations at 2. rewrite Hms.
  rewrite map_app. simpl. rewrite map_app. simpl. rewrite Hm.
  set (f := fun m : string => (registeredMethod m, config.Path e, config.Handler e)).
  set (x := (registeredMethod m2, config.Path e, config.Handler e)).
  replace (flat_map endpointRegistrations l1 ++
           (map f before ++ x :: map f between ++ x :: map f after) ++
           flat_map endpointRegistrations l2)%list
    with ((flat_map endpointRegistrations l1 ++ map f before) ++ x ::
          map f between ++ x :: (map f after ++ flat_map endpointRegistrations l2))%list.
  - apply registerAll_duplicate.
  - repeat (rewrite <- ?app_assoc; simpl). reflexivity.
Qed.

Lemma repeated_method_fails_witness : Setup Samples.twice = None.
Proof.
  apply (repeated_method_fails Samples.twice
           (config.mkService "hooks"
              [config.mkEndpoint "Hook" "/hooks" ["*"; "POST"; "__ENCORE_WILDCARD__"] (Fn 1)])
           (config.mkEndpoint "Hook" "/hooks" ["*"; "POST"; "__ENCORE_WILDCARD__"] (Fn 1))
           [] ["POST"] [] "*" "__ENCORE_WILDCARD__").
  - simpl; auto.
  - simpl; auto.
  - reflexivity.
  - reflexivity.
Defined.

(** ** Configurations that register nothing *)
Section EmptyFacts.


End EmptyFacts.


